(** * AthenaHook: the query lifecycle of
    airflow/providers/amazon/aws/hooks/athena.py

    The hook is a thin client of the Athena service.  Its methods are
    embedded as computations in a state-and-exception monad over a
    [world]: the state of the remote service (any deterministic
    service, given by its step function) and the trace of what the hook
    did to the outside: the client calls it made, the log records it
    wrote and the sleeps it took, in order. *)

From Stdlib Require Import String List ZArith NArith Bool Lia.
Import ListNotations.
Open Scope string_scope.

Set Warnings "-register-all".

(** ** Python values *)

(** The values that travel between the hook and boto3: JSON-like
    data.  A dict keeps its insertion order. *)
Inductive pyval : Type :=
| PNone
| PBool (b : bool)
| PInt (n : Z)
| PStr (s : string)
| PList (l : list pyval)
| PDict (d : list (string * pyval)).

(** [str | None] and [int | None] arguments. *)
Definition py_opt_str (o : option string) : pyval :=
  match o with Some s => PStr s | None => PNone end.

Definition py_opt_int (o : option Z) : pyval :=
  match o with Some n => PInt n | None => PNone end.

(** Truth value of an object, as [if x:] tests it. *)
Definition truthy (v : pyval) : bool :=
  match v with
  | PNone => false
  | PBool b => b
  | PInt n => negb (n =? 0)%Z
  | PStr s => negb (s =? "")
  | PList l => match l with [] => false | _ :: _ => true end
  | PDict d => match d with [] => false | _ :: _ => true end
  end.

(** [x is None] *)
Definition is_None (v : pyval) : bool :=
  match v with PNone => true | _ => false end.

(** [x in t] for a tuple [t] of strings: equality with one of its
    members; a value that is not a string equals none of them. *)
Definition py_in (v : pyval) (t : list string) : bool :=
  match v with
  | PStr s => existsb (String.eqb s) t
  | _ => false
  end.

(** The double quote character, for the log formats that hold one. *)
Definition dquote : string := String (Ascii.ascii_of_nat 34) EmptyString.

(** ** Exceptions and results *)

Inductive exn : Type :=
| KeyError (key : string)
| TypeError (msg : string)
| ValueError (args : list pyval)
| RuntimeError (msg : string)
| ClientError (msg : string).   (* raised by the boto3 client *)

Inductive outcome (A : Type) : Type :=
| Ok (a : A)
| Raise (e : exn).
Arguments Ok {A} a.
Arguments Raise {A} e.

(** ** Dicts *)

Fixpoint dict_get (d : list (string * pyval)) (k : string) : option pyval :=
  match d with
  | [] => None
  | (k', v) :: d' => if k' =? k then Some v else dict_get d' k
  end.

(** [d[k] = v] *)
Fixpoint dict_set (d : list (string * pyval)) (k : string) (v : pyval)
  : list (string * pyval) :=
  match d with
  | [] => [(k, v)]
  | (k', v') :: d' =>
      if k' =? k then (k, v) :: d' else (k', v') :: dict_set d' k v
  end.

(** [v[k]] for a string key [k] *)
Definition subscript (v : pyval) (k : string) : outcome pyval :=
  match v with
  | PDict d =>
      match dict_get d k with
      | Some x => Ok x
      | None => Raise (KeyError k)
      end
  | PNone => Raise (TypeError "'NoneType' object is not subscriptable")
  | PBool _ => Raise (TypeError "'bool' object is not subscriptable")
  | PInt _ => Raise (TypeError "'int' object is not subscriptable")
  | PStr _ => Raise (TypeError "string indices must be integers, not 'str'")
  | PList _ =>
      Raise (TypeError "list indices must be integers or slices, not str")
  end.

(** [v[k1][k2]...] *)
Fixpoint subscripts (v : pyval) (ks : list string) : outcome pyval :=
  match ks with
  | [] => Ok v
  | k :: ks' =>
      match subscript v k with
      | Ok v' => subscripts v' ks'
      | Raise e => Raise e
      end
  end.

(** ** The boto3 client and what the hook does to the outside *)

Inductive operation : Type :=
| StartQueryExecution
| GetQueryExecution
| GetQueryResults
| StopQueryExecution
| Paginate (operation_name : string).  (* get_paginator(name).paginate *)

Record request : Type := { op : operation; kwargs : list (string * pyval) }.

Inductive level : Type := INFO | ERROR | EXCEPTION.

Inductive event : Type :=
| EvCall (r : request)
| EvLog (lv : level) (fmt : string) (args : list pyval)
| EvSleep (seconds : N).

Definition is_call (o : operation) (ev : event) : bool :=
  match ev with
  | EvCall r =>
      match op r, o with
      | StartQueryExecution, StartQueryExecution => true
      | GetQueryExecution, GetQueryExecution => true
      | GetQueryResults, GetQueryResults => true
      | StopQueryExecution, StopQueryExecution => true
      | Paginate n, Paginate m => n =? m
      | _, _ => false
      end
  | _ => false
  end.

Definition is_any_call (ev : event) : bool :=
  match ev with EvCall _ => true | _ => false end.

Definition is_sleep (ev : event) : bool :=
  match ev with EvSleep _ => true | _ => false end.

(** Number of calls of one client operation, of all client calls, and
    of sleeps in a trace. *)
Definition n_calls (o : operation) (tr : list event) : nat :=
  length (filter (is_call o) tr).

Definition n_any_calls (tr : list event) : nat :=
  length (filter is_any_call tr).

Definition n_sleeps (tr : list event) : nat :=
  length (filter is_sleep tr).

(** ** The class constants and the instance *)

Definition INTERMEDIATE_STATES : list string := ["QUEUED"; "RUNNING"].
Definition FAILURE_STATES : list string := ["FAILED"; "CANCELLED"].
Definition SUCCESS_STATES : list string := ["SUCCEEDED"].
Definition TERMINAL_STATES : list string := ["SUCCEEDED"; "FAILED"; "CANCELLED"].

(** [self]: the interval handed to [time.sleep] (seconds, not
    negative) and the logging flag. *)
Record AthenaHook : Type := { sleep_time : N; log_query : bool }.

Definition default_hook : AthenaHook := {| sleep_time := 30; log_query := true |}.

(** ** Scriptable services *)

(** A service that answers the successive client calls from a script,
    whatever the request, and fails once the script is used up. *)
Definition scripted (r : request) (script : list (outcome pyval))
  : outcome pyval * list (outcome pyval) :=
  match script with
  | [] => (Raise (ClientError "no response scripted"), [])
  | x :: script' => (x, script')
  end.

(** A service that gives every call the same answer. *)
Definition constant (answer : outcome pyval) (r : request) (s : unit)
  : outcome pyval * unit :=
  (answer, s).

(** The execution record of a query in state [st]. *)
Definition record_in_state (st : pyval) : pyval :=
  PDict [("QueryExecution", PDict [("Status", PDict [("State", st)])])].

Section Hook.

Context {Svc : Type}.
Variable serve : request -> Svc -> outcome pyval * Svc.

Record world : Type := { svc : Svc; trace : list event }.

(** *** The monad: state and exceptions *)

Definition M (A : Type) : Type := world -> outcome A * world.

Definition ret {A} (a : A) : M A := fun w => (Ok a, w).

Definition raise {A} (e : exn) : M A := fun w => (Raise e, w).

Definition bind {A B} (m : M A) (f : A -> M B) : M B :=
  fun w =>
    match m w with
    | (Ok a, w') => f a w'
    | (Raise e, w') => (Raise e, w')
    end.

Notation "x <- m ;; k" := (bind m (fun x => k))
  (at level 61, m at next level, right associativity).
Notation "m ;;; k" := (bind m (fun _ => k))
  (at level 61, right associativity).

Definition emit (ev : event) : M unit :=
  fun w => (Ok tt, {| svc := svc w; trace := trace w ++ [ev] |}).

(** A log record at one level: format and arguments *)
Definition log (lv : level) (fmt : string) (args : list pyval) : M unit :=
  emit (EvLog lv fmt args).

(** [sleep(seconds)] *)
Definition sleep (seconds : N) : M unit := emit (EvSleep seconds).

(** A call of a client method with keyword arguments: the service answers and moves
    on; its answer is a value or an exception. *)
Definition call (r : request) : M pyval :=
  fun w =>
    let (res, s') := serve r (svc w) in
    (res, {| svc := s'; trace := trace w ++ [EvCall r] |}).

Definition get_query_execution (query_execution_id : pyval) : request :=
  {| op := GetQueryExecution;
     kwargs := [("QueryExecutionId", query_execution_id)] |}.

(** *** run_query *)

Definition run_query (self : AthenaHook) (query : string)
    (query_context result_configuration : list (string * pyval))
    (client_request_token : option string) (workgroup : string)
  : M pyval :=
  let params :=
    [("QueryString", PStr query);
     ("QueryExecutionContext", PDict query_context);
     ("ResultConfiguration", PDict result_configuration);
     ("WorkGroup", PStr workgroup)] in
  let params :=
    if truthy (py_opt_str client_request_token)
    then dict_set params "ClientRequestToken" (py_opt_str client_request_token)
    else params in
  (if log_query self
   then log INFO "Running Query with params: %s" [PDict params]
   else ret tt) ;;;
  response <- call {| op := StartQueryExecution; kwargs := params |} ;;
  match subscript response "QueryExecutionId" with
  | Raise e => raise e
  | Ok query_execution_id =>
      log INFO "Query execution id: %s" [query_execution_id] ;;;
      ret query_execution_id
  end.

(** *** check_query_status *)

(** The fetch stands before the [try]; the [try] covers the three
    subscripts only, and its [finally] returns [state]. *)
Definition check_query_status (self : AthenaHook) (query_execution_id : pyval)
  : M pyval :=
  response <- call (get_query_execution query_execution_id) ;;
  match subscripts response ["QueryExecution"; "Status"; "State"] with
  | Ok state => ret state
  | Raise _ =>
      log EXCEPTION
        "Exception while getting query state. Query execution id: %s"
        [query_execution_id] ;;;
      ret PNone
  end.

(** *** get_state_change_reason *)

Definition get_state_change_reason (self : AthenaHook)
    (query_execution_id : pyval) : M pyval :=
  response <- call (get_query_execution query_execution_id) ;;
  match subscripts response ["QueryExecution"; "Status"; "StateChangeReason"] with
  | Ok reason => ret reason
  | Raise _ =>
      log EXCEPTION
        "Exception while getting query state change reason. Query execution id: %s"
        [query_execution_id] ;;;
      ret PNone
  end.

(** *** get_query_results and get_query_results_paginator *)

Definition get_query_results (self : AthenaHook) (query_execution_id : pyval)
    (next_token_id : option string) (max_results : Z) : M pyval :=
  query_state <- check_query_status self query_execution_id ;;
  if is_None query_state then
    log ERROR "Invalid Query state. Query execution id: %s"
      [query_execution_id] ;;;
    ret PNone
  else if py_in query_state INTERMEDIATE_STATES
          || py_in query_state FAILURE_STATES then
    log ERROR
      ("Query is in " ++ dquote ++ "%s" ++ dquote
       ++ " state. Cannot fetch results. Query execution id: %s")
      [query_state; query_execution_id] ;;;
    ret PNone
  else
    let result_params :=
      [("QueryExecutionId", query_execution_id);
       ("MaxResults", PInt max_results)] in
    let result_params :=
      if truthy (py_opt_str next_token_id)
      then dict_set result_params "NextToken" (py_opt_str next_token_id)
      else result_params in
    call {| op := GetQueryResults; kwargs := result_params |}.

Definition get_query_results_paginator (self : AthenaHook)
    (query_execution_id : pyval) (max_items page_size : option Z)
    (starting_token : option string) : M pyval :=
  query_state <- check_query_status self query_execution_id ;;
  if is_None query_state then
    log ERROR "Invalid Query state (null). Query execution id: %s"
      [query_execution_id] ;;;
    ret PNone
  else if py_in query_state INTERMEDIATE_STATES
          || py_in query_state FAILURE_STATES then
    log ERROR
      ("Query is in " ++ dquote ++ "%s" ++ dquote
       ++ " state. Cannot fetch results, Query execution id: %s")
      [query_state; query_execution_id] ;;;
    ret PNone
  else
    let result_params :=
      [("QueryExecutionId", query_execution_id);
       ("PaginationConfig",
        PDict [("MaxItems", py_opt_int max_items);
               ("PageSize", py_opt_int page_size);
               ("StartingToken", py_opt_str starting_token)])] in
    call {| op := Paginate "get_query_results"; kwargs := result_params |}.

(** *** poll_query_status *)

(** [max_polling_attempts and try_number >= max_polling_attempts] *)
Definition budget_reached (max_polling_attempts : option Z) (try_number : Z)
  : bool :=
  truthy (py_opt_int max_polling_attempts)
  && match max_polling_attempts with
     | Some n => (try_number >=? n)%Z
     | None => false
     end.

(** How one pass through the body of [while True] ends: at a [break]
    with [final_query_state] set, or at the end of the body. *)
Inductive pass : Type :=
| Break (final_query_state : pyval)
| Next.

Definition poll_body (self : AthenaHook) (query_execution_id : pyval)
    (max_polling_attempts : option Z) (try_number : Z) : M pass :=
  query_state <- check_query_status self query_execution_id ;;
  let budget :=
    if budget_reached max_polling_attempts try_number
    then ret (Break query_state)
    else sleep (sleep_time self) ;;; ret Next in
  if is_None query_state then
    log INFO
      "Query execution id: %s, trial %s: Invalid query state. Retrying again"
      [query_execution_id; PInt try_number] ;;;
    budget
  else if py_in query_state TERMINAL_STATES then
    log INFO
      "Query execution id: %s, trial %s: Query execution completed. Final state is %s"
      [query_execution_id; PInt try_number; query_state] ;;;
    ret (Break query_state)
  else
    log INFO
      "Query execution id: %s, trial %s: Query is still in non-terminal state - %s"
      [query_execution_id; PInt try_number; query_state] ;;;
    budget.

(** The loop, run for at most [fuel] passes.  [None] with the world
    reached: the loop is still running after [fuel] passes. *)
Fixpoint poll_loop (self : AthenaHook) (query_execution_id : pyval)
    (max_polling_attempts : option Z) (fuel : nat) (try_number : Z) (w : world)
  : option (outcome pyval) * world :=
  match fuel with
  | O => (None, w)
  | S fuel' =>
      match poll_body self query_execution_id max_polling_attempts try_number w with
      | (Raise e, w') => (Some (Raise e), w')
      | (Ok (Break final_query_state), w') => (Some (Ok final_query_state), w')
      | (Ok Next, w') =>
          poll_loop self query_execution_id max_polling_attempts fuel'
            (try_number + 1) w'
      end
  end.

Definition poll_query_status (self : AthenaHook) (query_execution_id : pyval)
    (max_polling_attempts : option Z) (fuel : nat) (w : world)
  : option (outcome pyval) * world :=
  poll_loop self query_execution_id max_polling_attempts fuel 1 w.

(** *** get_output_location *)

Definition get_output_location (self : AthenaHook) (query_execution_id : pyval)
  : M pyval :=
  if truthy query_execution_id then
    response <- call (get_query_execution query_execution_id) ;;
    if truthy response then
      match subscripts response
              ["QueryExecution"; "ResultConfiguration"; "OutputLocation"] with
      | Ok output_location => ret output_location
      | Raise (KeyError k) =>
          log ERROR "Error retrieving OutputLocation. Query execution id: %s"
            [query_execution_id] ;;;
          raise (KeyError k)
      | Raise e => raise e
      end
    else
      (* a bare [raise] outside of any handler *)
      raise (RuntimeError "No active exception to reraise")
  else
    raise (ValueError
             [PStr "Invalid Query execution id. Query execution id: %s";
              query_execution_id]).

(** *** stop_query *)

Definition stop_query (self : AthenaHook) (query_execution_id : pyval)
  : M pyval :=
  log INFO "Stopping Query with executionId - %s" [query_execution_id] ;;;
  call {| op := StopQueryExecution;
          kwargs := [("QueryExecutionId", query_execution_id)] |}.

(** *** What the service is about to answer *)

(** The answers of the service to [n] successive fetches of the
    execution record, from service state [s], and the state after. *)
Fixpoint fetches (query_execution_id : pyval) (n : nat) (s : Svc)
  : list (outcome pyval) :=
  match n with
  | O => []
  | S n' =>
      let (r, s') := serve (get_query_execution query_execution_id) s in
      r :: fetches query_execution_id n' s'
  end.

(** The state a status check reads from an execution record: the
    nested field, or None when it cannot be reached. *)
Definition state_of (response : pyval) : pyval :=
  match subscripts response ["QueryExecution"; "Status"; "State"] with
  | Ok state => state
  | Raise _ => PNone
  end.

(** The first [length states] fetches return records, and [states]
    are the states read from them. *)
Definition observes (query_execution_id : pyval) (s : Svc)
    (states : list pyval) : Prop :=
  exists records,
    fetches query_execution_id (length states) s = map Ok records
    /\ map state_of records = states.

Definition terminal (v : pyval) : bool := py_in v TERMINAL_STATES.

(** The service state after [n] fetches of the execution record. *)
Fixpoint after_fetches (query_execution_id : pyval) (n : nat) (s : Svc) : Svc :=
  match n with
  | O => s
  | S n' =>
      after_fetches query_execution_id n'
        (snd (serve (get_query_execution query_execution_id) s))
  end.

(** What a status check that fetched [response] adds to the trace. *)
Definition check_trace (query_execution_id response : pyval) : list event :=
  EvCall (get_query_execution query_execution_id)
  :: match subscripts response ["QueryExecution"; "Status"; "State"] with
     | Ok _ => []
     | Raise _ =>
         [EvLog EXCEPTION
            "Exception while getting query state. Query execution id: %s"
            [query_execution_id]]
     end.

(** The log record of a pass that read a state that is not terminal. *)
Definition retry_log (query_execution_id : pyval) (try_number : Z)
    (query_state : pyval) : event :=
  if is_None query_state then
    EvLog INFO
      "Query execution id: %s, trial %s: Invalid query state. Retrying again"
      [query_execution_id; PInt try_number]
  else
    EvLog INFO
      "Query execution id: %s, trial %s: Query is still in non-terminal state - %s"
      [query_execution_id; PInt try_number; query_state].

(** The log record of the pass that read a terminal state. *)
Definition completed_log (query_execution_id : pyval) (try_number : Z)
    (query_state : pyval) : event :=
  EvLog INFO
    "Query execution id: %s, trial %s: Query execution completed. Final state is %s"
    [query_execution_id; PInt try_number; query_state].

(** The log record of get_query_results when it refuses to fetch. *)
Definition refusal_log (query_execution_id query_state : pyval) : event :=
  if is_None query_state then
    EvLog ERROR "Invalid Query state. Query execution id: %s"
      [query_execution_id]
  else
    EvLog ERROR
      ("Query is in " ++ dquote ++ "%s" ++ dquote
       ++ " state. Cannot fetch results. Query execution id: %s")
      [query_state; query_execution_id].

(** ** Lemmas on traces and on the service *)

Lemma n_calls_app o tr1 tr2 :
  n_calls o (tr1 ++ tr2) = (n_calls o tr1 + n_calls o tr2)%nat.
Proof. unfold n_calls. now rewrite filter_app, length_app. Qed.

Lemma n_any_calls_app tr1 tr2 :
  n_any_calls (tr1 ++ tr2) = (n_any_calls tr1 + n_any_calls tr2)%nat.
Proof. unfold n_any_calls. now rewrite filter_app, length_app. Qed.

Lemma n_sleeps_app tr1 tr2 :
  n_sleeps (tr1 ++ tr2) = (n_sleeps tr1 + n_sleeps tr2)%nat.
Proof. unfold n_sleeps. now rewrite filter_app, length_app. Qed.

Lemma check_trace_counts qid rec :
  n_calls GetQueryExecution (check_trace qid rec) = 1%nat
  /\ n_any_calls (check_trace qid rec) = 1%nat
  /\ n_sleeps (check_trace qid rec) = 0%nat.
Proof.
  unfold check_trace.
  destruct (subscripts rec _); repeat split; reflexivity.
Qed.

Lemma retry_log_counts o qid t st :
  n_calls o [retry_log qid t st] = 0%nat
  /\ n_any_calls [retry_log qid t st] = 0%nat
  /\ n_sleeps [retry_log qid t st] = 0%nat.
Proof.
  unfold retry_log. destruct (is_None st); repeat split; reflexivity.
Qed.

Lemma terminal_inv v :
  terminal v = true ->
  In v [PStr "SUCCEEDED"; PStr "FAILED"; PStr "CANCELLED"].
Proof.
  unfold terminal, py_in, TERMINAL_STATES.
  destruct v as [| | |s| |]; try discriminate.
  cbn [existsb]. intros H.
  repeat (apply orb_true_iff in H; destruct H as [H|H]);
    try discriminate; apply String.eqb_eq in H; subst; simpl; auto.
Qed.

Lemma terminal_not_None v : terminal v = true -> is_None v = false.
Proof. destruct v; try reflexivity. discriminate. Qed.

Lemma observes_nil qid s : observes qid s [].
Proof. exists []. split; reflexivity. Qed.

Lemma observes_cons qid s st states :
  observes qid s (st :: states) <->
  exists rec s',
    serve (get_query_execution qid) s = (Ok rec, s')
    /\ state_of rec = st
    /\ observes qid s' states.
Proof.
  unfold observes. split.
  - intros (records & Hf & Hm).
    destruct records as [|rec records]; [discriminate|].
    simpl in Hf, Hm.
    destruct (serve (get_query_execution qid) s) as [r s'] eqn:E.
    injection Hf as -> Hf. injection Hm as Hst Hm.
    exists rec, s'. repeat split; auto.
    exists records. split; assumption.
  - intros (rec & s' & E & Hst & records & Hf & Hm).
    exists (rec :: records). simpl. rewrite E. split.
    + f_equal. assumption.
    + f_equal; assumption.
Qed.

Lemma observes_app qid s states1 states2 :
  observes qid s (states1 ++ states2) <->
  observes qid s states1
  /\ observes qid (after_fetches qid (length states1) s) states2.
Proof.
  revert s. induction states1 as [|st states1 IH]; intros s; simpl.
  - split; [intros H; split; [apply observes_nil | exact H] | intros [_ H]; exact H].
  - rewrite !observes_cons. split.
    + intros (rec & s' & E & Hst & H). apply IH in H as [H1 H2].
      rewrite E. simpl. split; [|assumption].
      exists rec, s'. auto.
    + intros [(rec & s' & E & Hst & H1) H2].
      rewrite E in H2. simpl in H2.
      exists rec, s'. repeat split; auto. apply IH. auto.
Qed.

Lemma after_fetches_succ qid n s :
  after_fetches qid (S n) s
  = snd (serve (get_query_execution qid) (after_fetches qid n s)).
Proof.
  revert s. induction n as [|n IH]; intros s; [reflexivity|].
  change (after_fetches qid (S (S n)) s)
    with (after_fetches qid (S n) (snd (serve (get_query_execution qid) s))).
  rewrite IH. reflexivity.
Qed.

(** ** What one status check and one pass of the loop do *)

Lemma check_query_status_fetched self qid w rec s' :
  serve (get_query_execution qid) (svc w) = (Ok rec, s') ->
  check_query_status self qid w
  = (Ok (state_of rec),
     {| svc := s'; trace := trace w ++ check_trace qid rec |}).
Proof.
  intros E.
  unfold check_query_status, bind, call, state_of, check_trace.
  rewrite E.
  destruct (subscripts rec _); unfold log, emit, ret, bind; simpl.
  - reflexivity.
  - rewrite <- app_assoc. reflexivity.
Qed.

Lemma check_query_status_raised self qid w e s' :
  serve (get_query_execution qid) (svc w) = (Raise e, s') ->
  check_query_status self qid w
  = (Raise e,
     {| svc := s';
        trace := trace w ++ [EvCall (get_query_execution qid)] |}).
Proof.
  intros E. unfold check_query_status, bind, call. rewrite E. reflexivity.
Qed.

Lemma poll_body_retry self qid max t w rec s' :
  serve (get_query_execution qid) (svc w) = (Ok rec, s') ->
  terminal (state_of rec) = false ->
  poll_body self qid max t w
  = if budget_reached max t
    then (Ok (Break (state_of rec)),
          {| svc := s';
             trace := trace w
                      ++ check_trace qid rec ++ [retry_log qid t (state_of rec)] |})
    else (Ok Next,
          {| svc := s';
             trace := trace w
                      ++ check_trace qid rec
                      ++ [retry_log qid t (state_of rec); EvSleep (sleep_time self)] |}).
Proof.
  intros E Hnt. unfold poll_body, bind.
  rewrite (check_query_status_fetched self qid w rec s' E).
  unfold retry_log. fold (terminal (state_of rec)). rewrite Hnt.
  destruct (is_None (state_of rec)), (budget_reached max t);
    unfold log, sleep, emit, ret, bind; simpl;
    repeat rewrite <- app_assoc; reflexivity.
Qed.

Lemma poll_body_completed self qid max t w rec s' :
  serve (get_query_execution qid) (svc w) = (Ok rec, s') ->
  terminal (state_of rec) = true ->
  poll_body self qid max t w
  = (Ok (Break (state_of rec)),
     {| svc := s';
        trace := trace w
                 ++ check_trace qid rec ++ [completed_log qid t (state_of rec)] |}).
Proof.
  intros E Ht. unfold poll_body, bind.
  rewrite (check_query_status_fetched self qid w rec s' E).
  fold (terminal (state_of rec)). rewrite Ht, (terminal_not_None _ Ht).
  unfold completed_log, log, emit, ret, bind; simpl.
  repeat rewrite <- app_assoc; reflexivity.
Qed.

(** A pass breaks the loop only on a terminal state or on the budget. *)
Lemma poll_body_break self qid max t w v w' :
  poll_body self qid max t w = (Ok (Break v), w') ->
  terminal v = true \/ budget_reached max t = true.
Proof.
  unfold poll_body, bind.
  destruct (check_query_status self qid w) as [[st|e] w1]; [|discriminate].
  fold (terminal st).
  destruct (is_None st), (terminal st) eqn:Ht, (budget_reached max t);
    unfold log, sleep, emit, ret, bind; simpl; intros H;
    try discriminate; injection H as <- _; auto.
Qed.

(** ** The loop over a run of states that are not terminal *)

(** While the states read are not terminal and the budget is not
    reached, each pass makes one fetch and one sleep and the loop goes
    on with the next try. *)
Lemma poll_loop_retries self qid max states :
  forall fuel t w,
    observes qid (svc w) states ->
    Forall (fun st => terminal st = false) states ->
    (forall i, (0 <= i < Z.of_nat (length states))%Z ->
               budget_reached max (t + i) = false) ->
    exists tr,
      poll_loop self qid max (length states + fuel) t w
      = poll_loop self qid max fuel (t + Z.of_nat (length states))
          {| svc := after_fetches qid (length states) (svc w);
             trace := trace w ++ tr |}
      /\ n_calls GetQueryExecution tr = length states
      /\ n_any_calls tr = length states
      /\ n_sleeps tr = length states.
Proof.
  induction states as [|st states IH]; intros fuel t w Hobs Hnt Hbud.
  - exists []. simpl. rewrite Z.add_0_r, app_nil_r.
    destruct w; repeat split; reflexivity.
  - apply observes_cons in Hobs as (rec & s' & E & Hst & Hobs).
    inversion Hnt as [|? ? Hst' Hnt']; subst.
    assert (Hb0 : budget_reached max t = false).
    { rewrite <- (Z.add_0_r t). apply Hbud. simpl length. lia. }
    set (w1 := {| svc := s';
                  trace := trace w ++ check_trace qid rec
                           ++ [retry_log qid t (state_of rec);
                               EvSleep (sleep_time self)] |}).
    destruct (IH fuel (t + 1)%Z w1) as (tr & Hloop & Hc & Ha & Hs).
    + exact Hobs.
    + exact Hnt'.
    + intros i Hi. rewrite <- Z.add_assoc. apply Hbud. simpl length. lia.
    + exists (check_trace qid rec
              ++ [retry_log qid t (state_of rec); EvSleep (sleep_time self)]
              ++ tr)%list.
      destruct (check_trace_counts qid rec) as (Hc1 & Ha1 & Hs1).
      split; [|repeat split].
      * change (length (state_of rec :: states) + fuel)%nat
          with (S (length states + fuel)).
        cbn [poll_loop].
        rewrite (poll_body_retry self qid max t w rec s' E Hst'), Hb0.
        fold w1. rewrite Hloop.
        replace (t + 1 + Z.of_nat (length states))%Z
          with (t + Z.of_nat (length (state_of rec :: states)))%Z
          by (cbn [length]; lia).
        cbn [after_fetches length]. rewrite E. subst w1. cbn [svc trace snd].
        rewrite <- !app_assoc. reflexivity.
      * rewrite !n_calls_app, Hc1, Hc.
        unfold retry_log. destruct (is_None (state_of rec)); reflexivity.
      * rewrite !n_any_calls_app, Ha1, Ha.
        unfold retry_log. destruct (is_None (state_of rec)); reflexivity.
      * rewrite !n_sleeps_app, Hs1, Hs.
        unfold retry_log. destruct (is_None (state_of rec)); simpl; lia.
Qed.

(** The pass that reads a terminal state after such a run ends the
    loop there. *)
Lemma poll_loop_completes self qid max before final fuel t w :
  observes qid (svc w) (before ++ [final]) ->
  Forall (fun st => terminal st = false) before ->
  terminal final = true ->
  (forall i, (0 <= i < Z.of_nat (length before))%Z ->
             budget_reached max (t + i) = false) ->
  (length before < fuel)%nat ->
  exists tr,
    poll_loop self qid max fuel t w
    = (Some (Ok final),
       {| svc := after_fetches qid (S (length before)) (svc w);
          trace := trace w ++ tr
                   ++ [completed_log qid (t + Z.of_nat (length before)) final] |})
    /\ n_calls GetQueryExecution tr = S (length before)
    /\ n_any_calls tr = S (length before)
    /\ n_sleeps tr = length before.
Proof.
  intros Hobs Hnt Hterm Hbud Hfuel.
  apply observes_app in Hobs as [Hobs1 Hobs2].
  destruct (poll_loop_retries self qid max before (fuel - length before) t w
              Hobs1 Hnt Hbud) as (tr & Hloop & Hc & Ha & Hs).
  replace (length before + (fuel - length before))%nat with fuel in Hloop by lia.
  apply observes_cons in Hobs2 as (rec & s' & E & Hst & _).
  destruct (check_trace_counts qid rec) as (Hc1 & Ha1 & Hs1).
  exists (tr ++ check_trace qid rec)%list. split; [|repeat split].
  - rewrite Hloop.
    destruct (fuel - length before)%nat as [|f] eqn:Hf; [lia|].
    cbn [poll_loop]. subst final.
    rewrite (poll_body_completed self qid max _
               {| svc := after_fetches qid (length before) (svc w);
                  trace := trace w ++ tr |} rec s' E Hterm).
    cbn [svc trace]. rewrite after_fetches_succ, E, <- !app_assoc. reflexivity.
  - rewrite n_calls_app, Hc, Hc1. lia.
  - rewrite n_any_calls_app, Ha, Ha1. lia.
  - rewrite n_sleeps_app, Hs, Hs1. lia.
Qed.

(** Without a budget that can be reached, the loop returns terminal
    states only. *)
Lemma poll_loop_returns_terminal self qid max :
  (forall t, budget_reached max t = false) ->
  forall fuel t w v w',
    poll_loop self qid max fuel t w = (Some (Ok v), w') ->
    terminal v = true.
Proof.
  intros Hbud. induction fuel as [|fuel IH]; intros t w v w' H.
  - discriminate.
  - cbn [poll_loop] in H.
    destruct (poll_body self qid max t w) as [[[st|]|e] w1] eqn:E.
    + injection H as <- _.
      destruct (poll_body_break _ _ _ _ _ _ _ E) as [Ht|Hb]; [exact Ht|].
      rewrite Hbud in Hb. discriminate.
    + eapply IH. exact H.
    + discriminate.
Qed.

Lemma check_trace_no_result_fetch qid rec :
  n_calls GetQueryResults (check_trace qid rec) = 0%nat
  /\ n_calls (Paginate "get_query_results") (check_trace qid rec) = 0%nat.
Proof.
  unfold check_trace. destruct (subscripts rec _); split; reflexivity.
Qed.

(** The gate of the result fetches, in terms of the states it names. *)
Lemma gate_closed st :
  In st [PNone; PStr "QUEUED"; PStr "RUNNING"; PStr "FAILED"; PStr "CANCELLED"] ->
  is_None st
  || (py_in st INTERMEDIATE_STATES || py_in st FAILURE_STATES) = true.
Proof.
  simpl. intros [<-|[<-|[<-|[<-|[<-|[]]]]]]; reflexivity.
Qed.

Lemma gate_open st :
  ~ In st [PNone; PStr "QUEUED"; PStr "RUNNING"; PStr "FAILED"; PStr "CANCELLED"] ->
  is_None st = false
  /\ py_in st INTERMEDIATE_STATES || py_in st FAILURE_STATES = false.
Proof.
  intros Hn. destruct st as [| | |s| |]; try (split; reflexivity).
  - exfalso. apply Hn. simpl. auto.
  - split; [reflexivity|].
    unfold py_in, INTERMEDIATE_STATES, FAILURE_STATES. cbn [existsb].
    rewrite !orb_false_r.
    destruct (String.eqb_spec s "QUEUED") as [->|_];
      [exfalso; apply Hn; simpl; auto|].
    destruct (String.eqb_spec s "RUNNING") as [->|_];
      [exfalso; apply Hn; simpl; auto|].
    destruct (String.eqb_spec s "FAILED") as [->|_];
      [exfalso; apply Hn; simpl; auto|].
    destruct (String.eqb_spec s "CANCELLED") as [->|_];
      [exfalso; apply Hn; simpl; auto 6|].
    reflexivity.
Qed.

Lemma poll_body_raised self qid max t w e s' :
  serve (get_query_execution qid) (svc w) = (Raise e, s') ->
  poll_body self qid max t w
  = (Raise e,
     {| svc := s';
        trace := trace w ++ [EvCall (get_query_execution qid)] |}).
Proof.
  intros E. unfold poll_body, bind.
  rewrite (check_query_status_raised self qid w e s' E). reflexivity.
Qed.

(** ** The loop when no budget can be reached *)

(** When the budget is never reached the loop has two ways out: a
    check that reads a terminal state, and a fetch that raises.  Either
    comes after checks that read states that are not terminal. *)
Lemma poll_loop_exit self qid max :
  (forall t, budget_reached max t = false) ->
  forall fuel t w o w',
    poll_loop self qid max fuel t w = (Some o, w') ->
    exists before last,
      observes qid (svc w) before
      /\ Forall (fun st => terminal st = false) before
      /\ (length before < fuel)%nat
      /\ serve (get_query_execution qid)
           (after_fetches qid (length before) (svc w))
         = (last, svc w')
      /\ match o with
         | Ok v =>
             In v [PStr "SUCCEEDED"; PStr "FAILED"; PStr "CANCELLED"]
             /\ exists rec, last = Ok rec /\ state_of rec = v
         | Raise e => last = Raise e
         end.
Proof.
  intros Hbud. induction fuel as [|fuel IH]; intros t w o w' H.
  - discriminate.
  - cbn [poll_loop] in H.
    destruct (serve (get_query_execution qid) (svc w)) as [[rec|e] s'] eqn:E.
    + destruct (terminal (state_of rec)) eqn:T.
      * rewrite (poll_body_completed self qid max t w rec s' E T) in H.
        injection H as <- <-.
        exists [], (Ok rec). cbn [length after_fetches svc].
        repeat split.
        -- apply observes_nil.
        -- constructor.
        -- lia.
        -- exact E.
        -- apply terminal_inv. exact T.
        -- exists rec. split; reflexivity.
      * rewrite (poll_body_retry self qid max t w rec s' E T), Hbud in H.
        destruct (IH _ _ _ _ H)
          as (before & last & Hobs & Hnt & Hlt & Hlast & Ho).
        cbn [svc] in Hobs, Hlast.
        exists (state_of rec :: before), last.
        cbn [length after_fetches]. rewrite E. cbn [snd].
        repeat split.
        -- apply observes_cons. exists rec, s'. auto.
        -- constructor; assumption.
        -- lia.
        -- exact Hlast.
        -- exact Ho.
    + rewrite (poll_body_raised self qid max t w e s' E) in H.
      injection H as <- <-.
      exists [], (Raise e). cbn [length after_fetches svc].
      repeat split.
      * apply observes_nil.
      * constructor.
      * lia.
      * exact E.
Qed.

(** A fetch that raises after such a run ends the loop with its
    error. *)
Lemma poll_loop_raises self qid max before fuel t w e s' :
  observes qid (svc w) before ->
  Forall (fun st => terminal st = false) before ->
  (forall i, (0 <= i < Z.of_nat (length before))%Z ->
             budget_reached max (t + i) = false) ->
  serve (get_query_execution qid) (after_fetches qid (length before) (svc w))
  = (Raise e, s') ->
  (length before < fuel)%nat ->
  exists tr,
    poll_loop self qid max fuel t w
    = (Some (Raise e),
       {| svc := s';
          trace := trace w ++ tr ++ [EvCall (get_query_execution qid)] |})
    /\ n_calls GetQueryExecution tr = length before
    /\ n_sleeps tr = length before.
Proof.
  intros Hobs Hnt Hbud E Hfuel.
  destruct (poll_loop_retries self qid max before (fuel - length before) t w
              Hobs Hnt Hbud) as (tr & Hloop & Hc & _ & Hs).
  replace (length before + (fuel - length before))%nat with fuel in Hloop by lia.
  exists tr. split; [|split; assumption].
  rewrite Hloop.
  destruct (fuel - length before)%nat as [|f] eqn:Hf; [lia|].
  cbn [poll_loop].
  rewrite (poll_body_raised self qid max _
             {| svc := after_fetches qid (length before) (svc w);
                trace := trace w ++ tr |} e s' E).
  cbn [trace]. rewrite <- app_assoc. reflexivity.
Qed.

(** The loop under a budget that is never reached, in full: how it
    leaves, that it is still running while the states read are not
    terminal, and that a terminal state and a failing fetch each end
    it. *)
Lemma poll_query_status_unbudgeted self qid max :
  (forall t, budget_reached max t = false) ->
  (forall fuel w o w',
      poll_query_status self qid max fuel w = (Some o, w') ->
      exists before last,
        observes qid (svc w) before
        /\ Forall (fun st => terminal st = false) before
        /\ (length before < fuel)%nat
        /\ serve (get_query_execution qid)
             (after_fetches qid (length before) (svc w))
           = (last, svc w')
        /\ match o with
           | Ok v =>
               In v [PStr "SUCCEEDED"; PStr "FAILED"; PStr "CANCELLED"]
               /\ exists rec, last = Ok rec /\ state_of rec = v
           | Raise e => last = Raise e
           end)
  /\ (forall states w,
         observes qid (svc w) states ->
         Forall (fun st => terminal st = false) states ->
         exists tr,
           poll_query_status self qid max (length states) w
           = (None,
              {| svc := after_fetches qid (length states) (svc w);
                 trace := trace w ++ tr |})
           /\ n_calls GetQueryExecution tr = length states)
  /\ (forall before final fuel w,
         observes qid (svc w) (before ++ [final]) ->
         Forall (fun st => terminal st = false) before ->
         terminal final = true ->
         (length before < fuel)%nat ->
         exists w',
           poll_query_status self qid max fuel w = (Some (Ok final), w'))
  /\ (forall before e s' fuel w,
         observes qid (svc w) before ->
         Forall (fun st => terminal st = false) before ->
         serve (get_query_execution qid)
           (after_fetches qid (length before) (svc w))
         = (Raise e, s') ->
         (length before < fuel)%nat ->
         exists w',
           poll_query_status self qid max fuel w = (Some (Raise e), w')).
Proof.
  intros Hbud. unfold poll_query_status. repeat split.
  - intros fuel w o w' H.
    exact (poll_loop_exit self qid max Hbud fuel 1%Z w o w' H).
  - intros states w Hobs Hnt.
    destruct (poll_loop_retries self qid max states 0 1%Z w Hobs Hnt
                (fun i _ => Hbud (1 + i)%Z)) as (tr & Hloop & Hc & _).
    exists tr. split; [|exact Hc].
    rewrite Nat.add_0_r in Hloop. exact Hloop.
  - intros before final fuel w Hobs Hnt Hterm Hfuel.
    destruct (poll_loop_completes self qid max before final fuel 1%Z w
                Hobs Hnt Hterm (fun i _ => Hbud (1 + i)%Z) Hfuel)
      as (tr & Hloop & _).
    eexists. exact Hloop.
  - intros before e s' fuel w Hobs Hnt E Hfuel.
    destruct (poll_loop_raises self qid max before fuel 1%Z w e s'
                Hobs Hnt (fun i _ => Hbud (1 + i)%Z) E Hfuel)
      as (tr & Hloop & _).
    eexists. exact Hloop.
Qed.

(** ** The claims *)

(** C1 (as amended).  Whenever the remote fetch returns a record,
    check_query_status does not raise: it returns the State value of
    the record as the service gave it, and when the nested status field
    cannot be read it logs the failure and returns None.  When the
    remote fetch itself raises, the error goes to the caller and
    nothing is logged. *)
Theorem check_query_status_absorbs_missing_state self qid w r s' :
  serve (get_query_execution qid) (svc w) = (r, s') ->
  (forall rec state,
      r = Ok rec ->
      subscripts rec ["QueryExecution"; "Status"; "State"] = Ok state ->
      check_query_status self qid w
      = (Ok state,
         {| svc := s';
            trace := trace w ++ [EvCall (get_query_execution qid)] |}))
  /\ (forall rec e,
         r = Ok rec ->
         subscripts rec ["QueryExecution"; "Status"; "State"] = Raise e ->
         check_query_status self qid w
         = (Ok PNone,
            {| svc := s';
               trace :=
                 trace w
                 ++ [EvCall (get_query_execution qid);
                     EvLog EXCEPTION
                       "Exception while getting query state. Query execution id: %s"
                       [qid]] |}))
  /\ (forall e,
         r = Raise e ->
         check_query_status self qid w
         = (Raise e,
            {| svc := s';
               trace := trace w ++ [EvCall (get_query_execution qid)] |})).
Proof.
  intros E. repeat split.
  - intros rec state -> Hsub.
    rewrite (check_query_status_fetched self qid w rec s' E).
    unfold state_of, check_trace. rewrite Hsub. reflexivity.
  - intros rec e -> Hsub.
    rewrite (check_query_status_fetched self qid w rec s' E).
    unfold state_of, check_trace. rewrite Hsub. reflexivity.
  - intros e ->. apply check_query_status_raised. exact E.
Qed.

(** C2.  With an attempt budget N > 0, when the first N status checks
    read states none of which is terminal, the loop returns (given
    fuel for N passes) the state read by the N-th check, having made
    exactly N fetches of the execution record, no other client call,
    and N - 1 sleeps. *)
Theorem poll_query_status_budget_expires self qid (N : Z) states fuel w :
  (0 < N)%Z ->
  Z.of_nat (length states) = N ->
  observes qid (svc w) states ->
  Forall (fun st => terminal st = false) states ->
  (length states <= fuel)%nat ->
  exists tr,
    poll_query_status self qid (Some N) fuel w
    = (Some (Ok (last states PNone)),
       {| svc := after_fetches qid (length states) (svc w);
          trace := trace w ++ tr |})
    /\ n_calls GetQueryExecution tr = length states
    /\ n_any_calls tr = length states
    /\ n_sleeps tr = (length states - 1)%nat.
Proof.
  intros HN Hlen Hobs Hnt Hfuel.
  assert (Hne : states <> []) by (intros ->; simpl in Hlen; lia).
  destruct (exists_last Hne) as (before & final & ->).
  rewrite length_app in *. cbn [length] in *.
  apply Forall_app in Hnt as [Hnt1 Hnt2].
  inversion Hnt2 as [|? ? Hfinal _]; subst.
  apply observes_app in Hobs as [Hobs1 Hobs2].
  destruct (poll_loop_retries self qid
              (Some (Z.of_nat (length before + 1))) before
              (fuel - length before) 1%Z w Hobs1 Hnt1)
    as (tr & Hloop & Hc & Ha & Hs).
  { intros i Hi. unfold budget_reached. cbn [py_opt_int truthy].
    apply andb_false_iff. right. rewrite Z.geb_leb. apply Z.leb_gt. lia. }
  replace (length before + (fuel - length before))%nat with fuel in Hloop by lia.
  apply observes_cons in Hobs2 as (rec & s' & E & Hst & _).
  destruct (check_trace_counts qid rec) as (Hc1 & Ha1 & Hs1).
  exists (tr ++ check_trace qid rec
          ++ [retry_log qid (1 + Z.of_nat (length before)) final])%list.
  split; [|repeat split].
  - unfold poll_query_status. rewrite Hloop.
    destruct (fuel - length before)%nat as [|f] eqn:Hf; [lia|].
    cbn [poll_loop]. subst final.
    rewrite (poll_body_retry self qid _ _
               {| svc := after_fetches qid (length before) (svc w);
                  trace := trace w ++ tr |} rec s' E Hfinal).
    replace (budget_reached (Some (Z.of_nat (length before + 1)))
               (1 + Z.of_nat (length before))) with true.
    + rewrite last_last. cbn [svc trace].
      replace (length before + 1)%nat with (S (length before)) by lia.
      rewrite after_fetches_succ, E, <- !app_assoc. reflexivity.
    + symmetry. unfold budget_reached. cbn [py_opt_int truthy].
      apply andb_true_iff. split.
      * apply negb_true_iff, Z.eqb_neq. lia.
      * rewrite Z.geb_leb. apply Z.leb_le. lia.
  - rewrite !n_calls_app, Hc, Hc1.
    rewrite (proj1 (retry_log_counts _ _ _ _)). lia.
  - rewrite !n_any_calls_app, Ha, Ha1.
    rewrite (proj1 (proj2 (retry_log_counts GetQueryExecution _ _ _))). lia.
  - rewrite !n_sleeps_app, Hs, Hs1.
    rewrite (proj2 (proj2 (retry_log_counts GetQueryExecution _ _ _))). lia.
Qed.

(** C3.  When the loop comes to a check that reads a terminal state
    (the checks before it read states that are not terminal and did
    not reach the budget), it returns that state, which is SUCCEEDED,
    FAILED or CANCELLED, and stops there: the fetches made are those up
    to this check, every earlier pass slept once, and the trace ends
    with the log record of the completion, with no check or sleep
    after it. *)
Theorem poll_query_status_exits_on_terminal self qid max before final fuel w :
  observes qid (svc w) (before ++ [final]) ->
  Forall (fun st => terminal st = false) before ->
  terminal final = true ->
  (forall i, (1 <= i <= Z.of_nat (length before))%Z ->
             budget_reached max i = false) ->
  (length before < fuel)%nat ->
  In final [PStr "SUCCEEDED"; PStr "FAILED"; PStr "CANCELLED"]
  /\ exists tr,
      poll_query_status self qid max fuel w
      = (Some (Ok final),
         {| svc := after_fetches qid (S (length before)) (svc w);
            trace :=
              trace w ++ tr
              ++ [EvLog INFO
                    "Query execution id: %s, trial %s: Query execution completed. Final state is %s"
                    [qid; PInt (Z.of_nat (length before) + 1); final]] |})
      /\ n_calls GetQueryExecution tr = S (length before)
      /\ n_any_calls tr = S (length before)
      /\ n_sleeps tr = length before.
Proof.
  intros Hobs Hnt Hterm Hbud Hfuel.
  split; [apply terminal_inv; exact Hterm|].
  destruct (poll_loop_completes self qid max before final fuel 1%Z w
              Hobs Hnt Hterm) as (tr & Hloop & Hcounts).
  - intros i Hi. apply Hbud. lia.
  - exact Hfuel.
  - exists tr. split; [|exact Hcounts].
    unfold poll_query_status. rewrite Hloop. unfold completed_log.
    rewrite (Z.add_comm 1). reflexivity.
Qed.

(** C4 (as amended).  After a status check that fetched a record,
    get_query_results returns None without asking for results when the
    state read is None, QUEUED, RUNNING, FAILED or CANCELLED, and asks
    the service for results, once, for every other state; of the five
    query states that is SUCCEEDED alone. *)
Theorem get_query_results_gate self qid next_token_id max_results w rec s1 :
  serve (get_query_execution qid) (svc w) = (Ok rec, s1) ->
  exists r w' tr,
    get_query_results self qid next_token_id max_results w = (r, w')
    /\ trace w' = (trace w ++ tr)%list
    /\ (In (state_of rec)
          [PNone; PStr "QUEUED"; PStr "RUNNING"; PStr "FAILED"; PStr "CANCELLED"] ->
        r = Ok PNone /\ svc w' = s1
        /\ n_calls GetQueryResults tr = 0%nat /\ n_any_calls tr = 1%nat)
    /\ (~ In (state_of rec)
          [PNone; PStr "QUEUED"; PStr "RUNNING"; PStr "FAILED"; PStr "CANCELLED"] ->
        n_calls GetQueryResults tr = 1%nat)
    /\ (In (state_of rec)
          [PStr "QUEUED"; PStr "RUNNING"; PStr "SUCCEEDED"; PStr "FAILED";
           PStr "CANCELLED"] ->
        (n_calls GetQueryResults tr = 1%nat <-> state_of rec = PStr "SUCCEEDED")).
Proof.
  intros E.
  destruct (check_trace_no_result_fetch qid rec) as [Hc0 _].
  destruct (check_trace_counts qid rec) as (_ & Ha1 & _).
  unfold get_query_results, bind.
  rewrite (check_query_status_fetched self qid w rec s1 E).
  set (st := state_of rec).
  assert (Hsucc : st = PStr "SUCCEEDED" ->
                  is_None st
                  || (py_in st INTERMEDIATE_STATES || py_in st FAILURE_STATES)
                  = false) by (intros ->; reflexivity).
  destruct (is_None st
            || (py_in st INTERMEDIATE_STATES || py_in st FAILURE_STATES))
    eqn:B.
  - (* the gate is closed *)
    exists (Ok PNone),
      {| svc := s1;
         trace := trace w ++ check_trace qid rec ++ [refusal_log qid st] |},
      (check_trace qid rec ++ [refusal_log qid st])%list.
    assert (Hn : n_calls GetQueryResults
                   (check_trace qid rec ++ [refusal_log qid st]) = 0%nat).
    { rewrite n_calls_app, Hc0.
      unfold refusal_log. destruct (is_None st); reflexivity. }
    split; [|split; [reflexivity|split; [|split]]].
    + unfold refusal_log. destruct (is_None st) eqn:HN.
      * unfold log, emit, ret, bind. cbn [svc trace].
        rewrite <- app_assoc. reflexivity.
      * cbn [orb] in B. rewrite B.
        unfold log, emit, ret, bind. cbn [svc trace].
        rewrite <- app_assoc. reflexivity.
    + intros _. repeat split; [exact Hn|].
      rewrite n_any_calls_app, Ha1.
      unfold refusal_log. destruct (is_None st); reflexivity.
    + intros Hout. apply gate_open in Hout as [H1 H2].
      fold st in H1, H2. rewrite H1, H2 in B. discriminate.
    + intros _. rewrite Hn. split; [discriminate|].
      intros H. specialize (Hsucc H). congruence.
  - (* the gate is open *)
    apply orb_false_iff in B as [HN B]. rewrite HN, B.
    set (params :=
           if truthy (py_opt_str next_token_id)
           then dict_set [("QueryExecutionId", qid);
                          ("MaxResults", PInt max_results)]
                  "NextToken" (py_opt_str next_token_id)
           else [("QueryExecutionId", qid); ("MaxResults", PInt max_results)]).
    unfold call. cbn [svc trace].
    destruct (serve {| op := GetQueryResults; kwargs := params |} s1)
      as [r s2].
    exists r, {| svc := s2;
                 trace := (trace w ++ check_trace qid rec)
                          ++ [EvCall {| op := GetQueryResults;
                                        kwargs := params |}] |},
      (check_trace qid rec
         ++ [EvCall {| op := GetQueryResults; kwargs := params |}])%list.
    assert (Hn : n_calls GetQueryResults
                   (check_trace qid rec
                    ++ [EvCall {| op := GetQueryResults; kwargs := params |}])
                 = 1%nat).
    { rewrite n_calls_app, Hc0. reflexivity. }
    split; [reflexivity|split; [|split; [|split]]].
    + cbn [trace]. rewrite <- app_assoc. reflexivity.
    + intros Hin. apply gate_closed in Hin. fold st in Hin.
      rewrite HN, B in Hin. discriminate.
    + intros _. exact Hn.
    + intros Hin. rewrite Hn. split; [intros _|reflexivity].
      simpl in Hin.
      destruct Hin as [H|[H|[H|[H|[H|[]]]]]]; try (symmetry; exact H);
        rewrite <- H in B; discriminate.
Qed.


(** C5 (as amended).  Called without an attempt budget,
    poll_query_status leaves the loop in two ways only: at a check
    that reads SUCCEEDED, FAILED or CANCELLED, which it returns, and at
    a fetch that raises, whose error goes to the caller; either comes
    after checks that read states that are not terminal.  So it never
    returns None or an intermediate state.  As long as the checks read
    states that are not terminal it is still in the loop, one fetch
    made per state read; a terminal state read is returned, and the
    error of a failing fetch is raised. *)
Theorem poll_query_status_unbounded self qid :
  (forall fuel w o w',
      poll_query_status self qid None fuel w = (Some o, w') ->
      exists before last,
        observes qid (svc w) before
        /\ Forall (fun st => terminal st = false) before
        /\ (length before < fuel)%nat
        /\ serve (get_query_execution qid)
             (after_fetches qid (length before) (svc w))
           = (last, svc w')
        /\ match o with
           | Ok v =>
               In v [PStr "SUCCEEDED"; PStr "FAILED"; PStr "CANCELLED"]
               /\ exists rec, last = Ok rec /\ state_of rec = v
           | Raise e => last = Raise e
           end)
  /\ (forall states w,
         observes qid (svc w) states ->
         Forall (fun st => terminal st = false) states ->
         exists tr,
           poll_query_status self qid None (length states) w
           = (None,
              {| svc := after_fetches qid (length states) (svc w);
                 trace := trace w ++ tr |})
           /\ n_calls GetQueryExecution tr = length states)
  /\ (forall before final fuel w,
         observes qid (svc w) (before ++ [final]) ->
         Forall (fun st => terminal st = false) before ->
         terminal final = true ->
         (length before < fuel)%nat ->
         exists w',
           poll_query_status self qid None fuel w = (Some (Ok final), w'))
  /\ (forall before e s' fuel w,
         observes qid (svc w) before ->
         Forall (fun st => terminal st = false) before ->
         serve (get_query_execution qid)
           (after_fetches qid (length before) (svc w))
         = (Raise e, s') ->
         (length before < fuel)%nat ->
         exists w',
           poll_query_status self qid None fuel w = (Some (Raise e), w')).
Proof.
  exact (poll_query_status_unbudgeted self qid None (fun _ => eq_refl)).
Qed.

(** C6.  With an empty or absent execution id get_output_location
    raises ValueError and leaves the world as it was: no call of the
    client (and no log record). *)
Theorem get_output_location_rejects_empty_id self qid w :
  qid = PStr "" \/ qid = PNone ->
  get_output_location self qid w
  = (Raise (ValueError
              [PStr "Invalid Query execution id. Query execution id: %s"; qid]),
     w).
Proof. intros [->| ->]; reflexivity. Qed.

(** C7.  When the fetch returns a record (not an empty one) in which a
    key on the way to the output location is missing, the KeyError of
    the lookup is logged at error level and raised to the caller. *)
Theorem get_output_location_reraises_missing_field self qid w rec s' k :
  truthy qid = true ->
  serve (get_query_execution qid) (svc w) = (Ok rec, s') ->
  truthy rec = true ->
  subscripts rec ["QueryExecution"; "ResultConfiguration"; "OutputLocation"]
  = Raise (KeyError k) ->
  get_output_location self qid w
  = (Raise (KeyError k),
     {| svc := s';
        trace :=
          trace w
          ++ [EvCall (get_query_execution qid);
              EvLog ERROR
                "Error retrieving OutputLocation. Query execution id: %s"
                [qid]] |}).
Proof.
  intros Hq E Hr Hsub.
  unfold get_output_location. rewrite Hq.
  unfold bind, call. rewrite E, Hr, Hsub.
  unfold log, emit, raise, bind. cbn [svc trace].
  rewrite <- app_assoc. reflexivity.
Qed.

(** C8.  run_query sends one start_query_execution request whose
    parameters are the query text, the query context, the result
    configuration and the workgroup, followed by the client request
    token when one was given (and is not the empty string); when the
    service answers with a dict that has a QueryExecutionId, run_query
    logs it and returns it.  The request parameters are logged before
    the call when log_query is set. *)
Theorem run_query_submits self query query_context result_configuration
    client_request_token workgroup w response s' query_execution_id :
  let params : list (string * pyval) :=
    ([("QueryString", PStr query);
      ("QueryExecutionContext", PDict query_context);
      ("ResultConfiguration", PDict result_configuration);
      ("WorkGroup", PStr workgroup)]
     ++ match client_request_token with
        | Some token =>
            if token =? "" then [] else [("ClientRequestToken", PStr token)]
        | None => []
        end)%list in
  serve {| op := StartQueryExecution; kwargs := params |} (svc w)
  = (Ok response, s') ->
  subscript response "QueryExecutionId" = Ok query_execution_id ->
  run_query self query query_context result_configuration
    client_request_token workgroup w
  = (Ok query_execution_id,
     {| svc := s';
        trace :=
          trace w
          ++ (if log_query self
              then [EvLog INFO "Running Query with params: %s" [PDict params]]
              else [])
          ++ [EvCall {| op := StartQueryExecution; kwargs := params |};
              EvLog INFO "Query execution id: %s" [query_execution_id]] |}).
Proof.
  intros params E Hid.
  unfold run_query.
  assert (Hp : (if truthy (py_opt_str client_request_token)
                then dict_set
                       [("QueryString", PStr query);
                        ("QueryExecutionContext", PDict query_context);
                        ("ResultConfiguration", PDict result_configuration);
                        ("WorkGroup", PStr workgroup)]
                       "ClientRequestToken" (py_opt_str client_request_token)
                else
                  [("QueryString", PStr query);
                   ("QueryExecutionContext", PDict query_context);
                   ("ResultConfiguration", PDict result_configuration);
                   ("WorkGroup", PStr workgroup)]) = params).
  { subst params. destruct client_request_token as [token|]; [|reflexivity].
    cbn [py_opt_str truthy]. destruct (token =? ""); reflexivity. }
  rewrite Hp. unfold bind, call.
  destruct (log_query self); unfold log, emit, ret; cbn [svc trace];
    rewrite E, Hid; cbn [svc trace]; rewrite <- !app_assoc; reflexivity.
Qed.

(** C9 (as amended).  A budget of 0 is no budget: for every number of
    passes and every world poll_query_status with
    max_polling_attempts = 0 does what it does with
    max_polling_attempts = None.  It does not leave after zero
    attempts, nor on any count of attempts: as long as the checks read
    states that are not terminal it is still in the loop, one fetch
    made per state read.  It leaves at a check that reads a terminal
    state, which it returns, or at a fetch that raises, whose error
    goes to the caller, and in no other way. *)
Theorem poll_query_status_zero_budget self qid :
  (forall fuel w,
      poll_query_status self qid (Some 0%Z) fuel w
      = poll_query_status self qid None fuel w)
  /\ (forall states w,
         observes qid (svc w) states ->
         Forall (fun st => terminal st = false) states ->
         exists tr,
           poll_query_status self qid (Some 0%Z) (length states) w
           = (None,
              {| svc := after_fetches qid (length states) (svc w);
                 trace := trace w ++ tr |})
           /\ n_calls GetQueryExecution tr = length states)
  /\ (forall before final fuel w,
         observes qid (svc w) (before ++ [final]) ->
         Forall (fun st => terminal st = false) before ->
         terminal final = true ->
         (length before < fuel)%nat ->
         exists w',
           poll_query_status self qid (Some 0%Z) fuel w
           = (Some (Ok final), w'))
  /\ (forall before e s' fuel w,
         observes qid (svc w) before ->
         Forall (fun st => terminal st = false) before ->
         serve (get_query_execution qid)
           (after_fetches qid (length before) (svc w))
         = (Raise e, s') ->
         (length before < fuel)%nat ->
         exists w',
           poll_query_status self qid (Some 0%Z) fuel w
           = (Some (Raise e), w'))
  /\ (forall fuel w o w',
         poll_query_status self qid (Some 0%Z) fuel w = (Some o, w') ->
         exists before last,
           observes qid (svc w) before
           /\ Forall (fun st => terminal st = false) before
           /\ (length before < fuel)%nat
           /\ serve (get_query_execution qid)
                (after_fetches qid (length before) (svc w))
              = (last, svc w')
           /\ match o with
              | Ok v =>
                  In v [PStr "SUCCEEDED"; PStr "FAILED"; PStr "CANCELLED"]
                  /\ exists rec, last = Ok rec /\ state_of rec = v
              | Raise e => last = Raise e
              end).
Proof.
  destruct (poll_query_status_unbudgeted self qid (Some 0%Z) (fun _ => eq_refl))
    as (Hexit & Hrun & Hterm & Hraise).
  split; [|repeat split; assumption].
  intros fuel w. unfold poll_query_status. generalize 1%Z as t. revert w.
  induction fuel as [|fuel IH]; intros w t; [reflexivity|].
  cbn [poll_loop].
  change (poll_body self qid (Some 0%Z) t w) with (poll_body self qid None t w).
  destruct (poll_body self qid None t w) as [[[st|]|e] w1];
    [reflexivity|apply IH|reflexivity].
Qed.

(** C10.  The gate of both result fetches is by exclusion: after a
    status check that read any state other than None, QUEUED, RUNNING,
    FAILED and CANCELLED (SUCCEEDED or not, a string or not),
    get_query_results sends its get_query_results request and
    get_query_results_paginator its paginate request, and each returns
    what the service answers. *)
Theorem result_fetch_gated_by_exclusion self qid w rec s1 :
  serve (get_query_execution qid) (svc w) = (Ok rec, s1) ->
  state_of rec <> PNone ->
  ~ In (state_of rec)
      [PStr "QUEUED"; PStr "RUNNING"; PStr "FAILED"; PStr "CANCELLED"] ->
  (forall next_token_id max_results,
      let fetch :=
        {| op := GetQueryResults;
           kwargs :=
             [("QueryExecutionId", qid); ("MaxResults", PInt max_results)]
             ++ match next_token_id with
                | Some token =>
                    if token =? "" then [] else [("NextToken", PStr token)]
                | None => []
                end |} in
      exists tr,
        get_query_results self qid next_token_id max_results w
        = (fst (serve fetch s1),
           {| svc := snd (serve fetch s1);
              trace := trace w ++ tr ++ [EvCall fetch] |})
        /\ n_any_calls tr = 1%nat)
  /\ (forall max_items page_size starting_token,
         let fetch :=
           {| op := Paginate "get_query_results";
              kwargs :=
                [("QueryExecutionId", qid);
                 ("PaginationConfig",
                  PDict [("MaxItems", py_opt_int max_items);
                         ("PageSize", py_opt_int page_size);
                         ("StartingToken", py_opt_str starting_token)])] |} in
         exists tr,
           get_query_results_paginator self qid max_items page_size
             starting_token w
           = (fst (serve fetch s1),
              {| svc := snd (serve fetch s1);
                 trace := trace w ++ tr ++ [EvCall fetch] |})
           /\ n_any_calls tr = 1%nat).
Proof.
  intros E HnN Hn4.
  assert (Hout : ~ In (state_of rec)
                     [PNone; PStr "QUEUED"; PStr "RUNNING"; PStr "FAILED";
                      PStr "CANCELLED"]).
  { intros [H|H]; [apply HnN; symmetry; exact H | apply Hn4; exact H]. }
  apply gate_open in Hout as [HN HG].
  destruct (check_trace_counts qid rec) as (_ & Ha1 & _).
  split.
  - intros next_token_id max_results fetch.
    exists (check_trace qid rec). split; [|exact Ha1].
    unfold get_query_results, bind.
    rewrite (check_query_status_fetched self qid w rec s1 E), HN, HG.
    assert (Hp : (if truthy (py_opt_str next_token_id)
                  then dict_set
                         [("QueryExecutionId", qid);
                          ("MaxResults", PInt max_results)]
                         "NextToken" (py_opt_str next_token_id)
                  else [("QueryExecutionId", qid);
                        ("MaxResults", PInt max_results)])
                 = kwargs fetch).
    { subst fetch. cbn [kwargs].
      destruct next_token_id as [token|]; [|reflexivity].
      cbn [py_opt_str truthy]. destruct (token =? ""); reflexivity. }
    rewrite Hp. unfold call. cbn [svc trace].
    change {| op := GetQueryResults; kwargs := kwargs fetch |} with fetch.
    destruct (serve fetch s1) as [r s2]. cbn [fst snd].
    rewrite <- app_assoc. reflexivity.
  - intros max_items page_size starting_token fetch.
    exists (check_trace qid rec). split; [|exact Ha1].
    unfold get_query_results_paginator, bind.
    rewrite (check_query_status_fetched self qid w rec s1 E), HN, HG.
    unfold call. cbn [svc trace]. fold fetch.
    destruct (serve fetch s1) as [r s2]. cbn [fst snd].
    rewrite <- app_assoc. reflexivity.
Qed.

(** ** Further properties of the polling loop *)


(** Every pass makes one fetch and no other call; it sleeps exactly
    when it goes on to the next pass, and it breaks only on a terminal
    state or on the budget. *)
Lemma poll_body_pass self qid max t w o w' :
  poll_body self qid max t w = (o, w') ->
  exists tr,
    w' = {| svc := snd (serve (get_query_execution qid) (svc w));
            trace := trace w ++ tr |}
    /\ n_calls GetQueryExecution tr = 1%nat
    /\ n_any_calls tr = 1%nat
    /\ match o with
       | Ok Next => n_sleeps tr = 1%nat /\ budget_reached max t = false
       | Ok (Break v) =>
           n_sleeps tr = 0%nat
           /\ (terminal v = true \/ budget_reached max t = true)
       | Raise _ => n_sleeps tr = 0%nat
       end.
Proof.
  destruct (serve (get_query_execution qid) (svc w)) as [[rec|e] s'] eqn:E.
  - destruct (check_trace_counts qid rec) as (Hc1 & Ha1 & Hs1).
    destruct (terminal (state_of rec)) eqn:T.
    + rewrite (poll_body_completed self qid max t w rec s' E T).
      intros H. injection H as <- <-.
      exists (check_trace qid rec ++ [completed_log qid t (state_of rec)])%list.
      rewrite n_calls_app, n_any_calls_app, n_sleeps_app, Hc1, Ha1, Hs1.
      repeat split; auto.
    + rewrite (poll_body_retry self qid max t w rec s' E T).
      destruct (retry_log_counts GetQueryExecution qid t (state_of rec))
        as (Hc2 & Ha2 & Hs2).
      destruct (budget_reached max t) eqn:B; intros H; injection H as <- <-.
      * exists (check_trace qid rec ++ [retry_log qid t (state_of rec)])%list.
        rewrite n_calls_app, n_any_calls_app, n_sleeps_app,
          Hc1, Ha1, Hs1, Hc2, Ha2, Hs2.
        repeat split; auto.
      * exists (check_trace qid rec
                ++ [retry_log qid t (state_of rec)]
                ++ [EvSleep (sleep_time self)])%list.
        rewrite !n_calls_app, !n_any_calls_app, !n_sleeps_app,
          Hc1, Ha1, Hs1, Hc2, Ha2, Hs2.
        repeat split; auto.
  - rewrite (poll_body_raised self qid max t w e s' E).
    intros H. injection H as <- <-.
    exists [EvCall (get_query_execution qid)]. repeat split; reflexivity.
Qed.

(** The account of a run of the loop, for any service: what it added
    to the trace, how far the service was driven, and why it ended. *)
Lemma poll_loop_account self qid max :
  forall fuel t w o w',
    poll_loop self qid max fuel t w = (o, w') ->
    exists tr,
      w' = {| svc := after_fetches qid (n_calls GetQueryExecution tr) (svc w);
              trace := trace w ++ tr |}
      /\ n_any_calls tr = n_calls GetQueryExecution tr
      /\ match o with
         | None =>
             n_calls GetQueryExecution tr = fuel /\ n_sleeps tr = fuel
         | Some r =>
             exists k,
               n_calls GetQueryExecution tr = S k
               /\ (k < fuel)%nat
               /\ n_sleeps tr = k
               /\ (forall i, (0 <= i < Z.of_nat k)%Z ->
                             budget_reached max (t + i) = false)
               /\ (forall v, r = Ok v ->
                             terminal v = true
                             \/ budget_reached max (t + Z.of_nat k) = true)
         end.
Proof.
  induction fuel as [|fuel IH]; intros t w o w' H.
  - injection H as <- <-. exists []. rewrite app_nil_r.
    destruct w. repeat split; reflexivity.
  - cbn [poll_loop] in H.
    destruct (poll_body self qid max t w) as [p w1] eqn:P.
    destruct (poll_body_pass self qid max t w p w1 P)
      as (tr1 & -> & Hc1 & Ha1 & Hp).
    destruct p as [[v|]|e].
    + injection H as <- <-. destruct Hp as [Hs1 Hv].
      exists tr1. rewrite Hc1, Ha1. repeat split.
      exists 0%nat. repeat split; auto; try lia.
      intros v' [= <-]. rewrite Z.add_0_r. exact Hv.
    + destruct Hp as [Hs1 Hb].
      destruct (IH _ _ _ _ H) as (tr2 & -> & Ha2 & Ho).
      cbn [svc trace]. exists (tr1 ++ tr2)%list.
      rewrite n_calls_app, n_any_calls_app, Hc1, Ha1, Ha2, app_assoc.
      repeat split.
      destruct o as [r|].
      * destruct Ho as (k & Hk & Hlt & Hs2 & Hbud & Hend).
        exists (S k). rewrite n_sleeps_app, Hs1, Hs2, Hk.
        repeat split; try lia.
        -- intros i Hi. destruct (Z.eq_dec i 0) as [->|Hne].
           ++ rewrite Z.add_0_r. exact Hb.
           ++ replace (t + i)%Z with (t + 1 + (i - 1))%Z by lia.
              apply Hbud. lia.
        -- intros v Hv.
           replace (t + Z.of_nat (S k))%Z with (t + 1 + Z.of_nat k)%Z by lia.
           apply Hend. exact Hv.
      * destruct Ho as [Hc2 Hs2]. rewrite n_sleeps_app, Hs1, Hs2, Hc2.
        split; reflexivity.
    + injection H as <- <-.
      exists tr1. rewrite Hc1, Ha1. repeat split.
      exists 0%nat. repeat split; auto; try lia.
      intros v' [=].
Qed.

(** X1.  For any service, budget and number of passes:
    poll_query_status only adds to the trace, makes no client call
    other than fetches of the execution record, and has driven the
    service by exactly those fetches.  When it has left the loop (by
    return or by an exception) it made at least one fetch and slept
    once between two consecutive fetches, never after the last; while
    it is still in the loop every pass made one fetch and one sleep. *)
Theorem poll_query_status_account self qid max fuel w :
  exists tr,
    snd (poll_query_status self qid max fuel w)
    = {| svc := after_fetches qid (n_calls GetQueryExecution tr) (svc w);
         trace := trace w ++ tr |}
    /\ n_any_calls tr = n_calls GetQueryExecution tr
    /\ match fst (poll_query_status self qid max fuel w) with
       | None => n_calls GetQueryExecution tr = fuel /\ n_sleeps tr = fuel
       | Some _ =>
           (1 <= n_calls GetQueryExecution tr <= fuel)%nat
           /\ n_sleeps tr = (n_calls GetQueryExecution tr - 1)%nat
       end.
Proof.
  unfold poll_query_status.
  destruct (poll_loop self qid max fuel 1 w) as [o w'] eqn:H.
  destruct (poll_loop_account self qid max fuel 1%Z w o w' H)
    as (tr & -> & Ha & Ho).
  exists tr. cbn [fst snd]. repeat split; [exact Ha|].
  destruct o as [r|]; [|exact Ho].
  destruct Ho as (k & Hk & Hlt & Hs & _). rewrite Hk, Hs. lia.
Qed.

(** X2.  poll_query_status returns a state that is not terminal (None
    among them) only when a budget other than 0 was given, and then it
    has made exactly max(1, budget) status checks. *)
Theorem poll_query_status_returns_nonterminal self qid max fuel w v w' :
  poll_query_status self qid max fuel w = (Some (Ok v), w') ->
  terminal v = false ->
  exists n tr,
    max = Some n
    /\ n <> 0%Z
    /\ trace w' = (trace w ++ tr)%list
    /\ Z.of_nat (n_calls GetQueryExecution tr) = Z.max 1 n.
Proof.
  unfold poll_query_status. intros H Hnt.
  destruct (poll_loop_account self qid max fuel 1%Z w _ _ H)
    as (tr & -> & _ & k & Hk & _ & _ & Hbud & Hend).
  destruct (Hend v eq_refl) as [Ht|Hb]; [congruence|].
  destruct max as [n|]; [|discriminate].
  unfold budget_reached in Hb, Hbud. cbn [py_opt_int truthy] in Hb, Hbud.
  apply andb_true_iff in Hb as [Hn0 Hge].
  apply negb_true_iff, Z.eqb_neq in Hn0.
  rewrite Z.geb_leb in Hge. apply Z.leb_le in Hge.
  exists n, tr. repeat split; [exact Hn0|].
  rewrite Hk. destruct k as [|k]; [lia|].
  specialize (Hbud (Z.of_nat k) ltac:(lia)).
  apply andb_false_iff in Hbud as [Hbud|Hbud].
  - apply negb_false_iff, Z.eqb_eq in Hbud. contradiction.
  - rewrite Z.geb_leb in Hbud. apply Z.leb_gt in Hbud. lia.
Qed.

(** X3.  A budget that is negative, or 1, ends the loop after the
    first status check whatever state it read: one fetch, no sleep,
    and that state returned. *)
Theorem poll_query_status_single_check self qid n fuel w rec s' :
  (n <= 1)%Z ->
  n <> 0%Z ->
  serve (get_query_execution qid) (svc w) = (Ok rec, s') ->
  exists tr,
    poll_query_status self qid (Some n) (S fuel) w
    = (Some (Ok (state_of rec)), {| svc := s'; trace := trace w ++ tr |})
    /\ n_calls GetQueryExecution tr = 1%nat
    /\ n_any_calls tr = 1%nat
    /\ n_sleeps tr = 0%nat.
Proof.
  intros Hle Hn0 E.
  assert (Hb : budget_reached (Some n) 1 = true).
  { unfold budget_reached. cbn [py_opt_int truthy].
    apply andb_true_iff. split.
    - apply negb_true_iff, Z.eqb_neq. exact Hn0.
    - rewrite Z.geb_leb. apply Z.leb_le. exact Hle. }
  destruct (check_trace_counts qid rec) as (Hc1 & Ha1 & Hs1).
  unfold poll_query_status. cbn [poll_loop].
  destruct (terminal (state_of rec)) eqn:T.
  - rewrite (poll_body_completed self qid (Some n) 1%Z w rec s' E T).
    exists (check_trace qid rec ++ [completed_log qid 1 (state_of rec)])%list.
    rewrite n_calls_app, n_any_calls_app, n_sleeps_app, Hc1, Ha1, Hs1.
    repeat split.
  - rewrite (poll_body_retry self qid (Some n) 1%Z w rec s' E T), Hb.
    destruct (retry_log_counts GetQueryExecution qid 1 (state_of rec))
      as (Hc2 & Ha2 & Hs2).
    exists (check_trace qid rec ++ [retry_log qid 1 (state_of rec)])%list.
    rewrite n_calls_app, n_any_calls_app, n_sleeps_app,
      Hc1, Ha1, Hs1, Hc2, Ha2, Hs2.
    repeat split.
Qed.

(** X4.  The loop does not absorb a failing fetch: when the checks
    before read states that are not terminal, the budget was not
    reached, and the next fetch raises, poll_query_status raises that
    error, after one fetch per check and one sleep per earlier pass. *)
Theorem poll_query_status_propagates_fetch_error self qid max before fuel w
    e s' :
  observes qid (svc w) before ->
  Forall (fun st => terminal st = false) before ->
  (forall i, (1 <= i <= Z.of_nat (length before))%Z ->
             budget_reached max i = false) ->
  serve (get_query_execution qid) (after_fetches qid (length before) (svc w))
  = (Raise e, s') ->
  (length before < fuel)%nat ->
  exists tr,
    poll_query_status self qid max fuel w
    = (Some (Raise e), {| svc := s'; trace := trace w ++ tr |})
    /\ n_calls GetQueryExecution tr = S (length before)
    /\ n_any_calls tr = S (length before)
    /\ n_sleeps tr = length before.
Proof.
  intros Hobs Hnt Hbud E Hfuel.
  destruct (poll_loop_retries self qid max before (fuel - length before) 1%Z w
              Hobs Hnt) as (tr & Hloop & Hc & Ha & Hs).
  { intros i Hi. apply Hbud. lia. }
  replace (length before + (fuel - length before))%nat with fuel in Hloop by lia.
  exists (tr ++ [EvCall (get_query_execution qid)])%list.
  split; [|repeat split].
  - unfold poll_query_status. rewrite Hloop.
    destruct (fuel - length before)%nat as [|f] eqn:Hf; [lia|].
    cbn [poll_loop].
    rewrite (poll_body_raised self qid max _
               {| svc := after_fetches qid (length before) (svc w);
                  trace := trace w ++ tr |} e s' E).
    cbn [trace]. rewrite <- app_assoc. reflexivity.
  - rewrite n_calls_app, Hc.
    replace (n_calls GetQueryExecution [EvCall (get_query_execution qid)])
      with 1%nat by reflexivity.
    lia.
  - rewrite n_any_calls_app, Ha.
    replace (n_any_calls [EvCall (get_query_execution qid)])
      with 1%nat by reflexivity.
    lia.
  - rewrite n_sleeps_app, Hs.
    replace (n_sleeps [EvCall (get_query_execution qid)])
      with 0%nat by reflexivity.
    lia.
Qed.

(** ** Further properties of the status and result operations *)

(** X5.  get_state_change_reason follows the pattern of
    check_query_status: the StateChangeReason of the fetched record is
    returned as it is; when it cannot be read (a key is missing, or a
    value on the way is no dict) the failure is logged and None is
    returned; an error of the fetch itself goes to the caller,
    unlogged. *)
Theorem get_state_change_reason_absorbs_missing_reason self qid w r s' :
  serve (get_query_execution qid) (svc w) = (r, s') ->
  (forall rec reason,
      r = Ok rec ->
      subscripts rec ["QueryExecution"; "Status"; "StateChangeReason"]
      = Ok reason ->
      get_state_change_reason self qid w
      = (Ok reason,
         {| svc := s';
            trace := trace w ++ [EvCall (get_query_execution qid)] |}))
  /\ (forall rec e,
         r = Ok rec ->
         subscripts rec ["QueryExecution"; "Status"; "StateChangeReason"]
         = Raise e ->
         get_state_change_reason self qid w
         = (Ok PNone,
            {| svc := s';
               trace :=
                 trace w
                 ++ [EvCall (get_query_execution qid);
                     EvLog EXCEPTION
                       "Exception while getting query state change reason. Query execution id: %s"
                       [qid]] |}))
  /\ (forall e,
         r = Raise e ->
         get_state_change_reason self qid w
         = (Raise e,
            {| svc := s';
               trace := trace w ++ [EvCall (get_query_execution qid)] |})).
Proof.
  intros E. unfold get_state_change_reason, bind, call. rewrite E.
  repeat split.
  - intros rec reason -> ->. reflexivity.
  - intros rec e -> ->. unfold log, emit, ret, bind. cbn [svc trace].
    rewrite <- app_assoc. reflexivity.
  - intros e ->. reflexivity.
Qed.

(** X6.  The gate of get_query_results_paginator: after a status check
    that fetched a record, it returns None without asking for a
    paginator when the state read is None, QUEUED, RUNNING, FAILED or
    CANCELLED (one client call made, the status fetch), and it makes
    the paginate call, once, for every other state (two client
    calls). *)
Theorem get_query_results_paginator_gate self qid max_items page_size
    starting_token w rec s1 :
  serve (get_query_execution qid) (svc w) = (Ok rec, s1) ->
  exists r w' tr,
    get_query_results_paginator self qid max_items page_size starting_token w
    = (r, w')
    /\ trace w' = (trace w ++ tr)%list
    /\ (In (state_of rec)
          [PNone; PStr "QUEUED"; PStr "RUNNING"; PStr "FAILED"; PStr "CANCELLED"] ->
        r = Ok PNone /\ svc w' = s1
        /\ n_calls (Paginate "get_query_results") tr = 0%nat
        /\ n_any_calls tr = 1%nat)
    /\ (~ In (state_of rec)
          [PNone; PStr "QUEUED"; PStr "RUNNING"; PStr "FAILED"; PStr "CANCELLED"] ->
        n_calls (Paginate "get_query_results") tr = 1%nat
        /\ n_any_calls tr = 2%nat).
Proof.
  intros E.
  destruct (check_trace_no_result_fetch qid rec) as [_ Hc0].
  destruct (check_trace_counts qid rec) as (_ & Ha1 & _).
  unfold get_query_results_paginator, bind.
  rewrite (check_query_status_fetched self qid w rec s1 E).
  set (st := state_of rec).
  destruct (is_None st) eqn:HN;
    [|destruct (py_in st INTERMEDIATE_STATES || py_in st FAILURE_STATES) eqn:B].
  - eexists _, _, (check_trace qid rec ++ [_])%list.
    unfold log, emit, ret, bind. cbn [svc trace].
    split; [reflexivity|]. cbn [trace].
    split; [rewrite <- app_assoc; reflexivity|].
    rewrite n_calls_app, n_any_calls_app, Hc0, Ha1. split.
    + intros _. repeat split.
    + intros Hout. apply gate_open in Hout as [H1 _].
      fold st in H1. congruence.
  - eexists _, _, (check_trace qid rec ++ [_])%list.
    unfold log, emit, ret, bind. cbn [svc trace].
    split; [reflexivity|]. cbn [trace].
    split; [rewrite <- app_assoc; reflexivity|].
    rewrite n_calls_app, n_any_calls_app, Hc0, Ha1. split.
    + intros _. repeat split.
    + intros Hout. apply gate_open in Hout as [_ H2].
      fold st in H2. congruence.
  - unfold call. cbn [svc trace].
    match goal with
    | |- context [serve ?req s1] =>
        destruct (serve req s1) as [r s2];
        exists r, {| svc := s2;
                     trace := (trace w ++ check_trace qid rec) ++ [EvCall req] |},
          (check_trace qid rec ++ [EvCall req])%list
    end.
    split; [reflexivity|]. cbn [trace].
    split; [rewrite <- app_assoc; reflexivity|].
    rewrite n_calls_app, n_any_calls_app, Hc0, Ha1. split.
    + intros Hin. apply gate_closed in Hin. fold st in Hin.
      rewrite HN, B in Hin. discriminate.
    + intros _. split; reflexivity.
Qed.

(** X7.  Neither result operation turns a failing status fetch into
    None: the error is raised to the caller, and no result fetch is
    attempted. *)
Theorem result_access_propagates_status_error self qid w e s' :
  serve (get_query_execution qid) (svc w) = (Raise e, s') ->
  (forall next_token_id max_results,
      get_query_results self qid next_token_id max_results w
      = (Raise e,
         {| svc := s';
            trace := trace w ++ [EvCall (get_query_execution qid)] |}))
  /\ (forall max_items page_size starting_token,
         get_query_results_paginator self qid max_items page_size
           starting_token w
         = (Raise e,
            {| svc := s';
               trace := trace w ++ [EvCall (get_query_execution qid)] |})).
Proof.
  intros E. split; intros;
    [unfold get_query_results | unfold get_query_results_paginator];
    unfold bind; rewrite (check_query_status_raised self qid w e s' E);
    reflexivity.
Qed.

(** ** Further properties of get_output_location and run_query *)

(** X8.  get_output_location returns a value exactly when the id is
    truthy, the fetch returned a record that is not empty, and the
    three subscripts reach the OutputLocation; the value is that field,
    one fetch was made and nothing was logged.  So a value returned is
    never a stand-in for a failure. *)
Theorem get_output_location_returns self qid w v w' :
  get_output_location self qid w = (Ok v, w') <->
  truthy qid = true
  /\ exists rec,
      serve (get_query_execution qid) (svc w) = (Ok rec, svc w')
      /\ truthy rec = true
      /\ subscripts rec
           ["QueryExecution"; "ResultConfiguration"; "OutputLocation"]
         = Ok v
      /\ trace w' = (trace w ++ [EvCall (get_query_execution qid)])%list.
Proof.
  unfold get_output_location. split.
  - destruct (truthy qid); [|discriminate].
    unfold bind, call.
    destruct (serve (get_query_execution qid) (svc w)) as [[rec|e] s'];
      [|discriminate].
    destruct (truthy rec) eqn:Hr; [|discriminate].
    destruct (subscripts rec _) as [x|[]] eqn:Hsub;
      unfold log, emit, raise, ret, bind; try discriminate.
    intros H. injection H as <- <-. cbn [svc trace].
    split; [reflexivity|]. exists rec. repeat split; auto.
  - intros (Hq & rec & E & Hr & Hsub & Htr).
    rewrite Hq. unfold bind, call. rewrite E, Hr, Hsub.
    unfold ret. destruct w' as [s' tr']. cbn [svc trace] in *.
    rewrite Htr. reflexivity.
Qed.

(** X9.  When the fetch returns an empty record (an empty dict, or
    None), get_output_location comes to its bare raise: outside of any
    exception handler that is a RuntimeError, raised after the one
    fetch, with nothing logged. *)
Theorem get_output_location_empty_record self qid w rec s' :
  truthy qid = true ->
  serve (get_query_execution qid) (svc w) = (Ok rec, s') ->
  truthy rec = false ->
  get_output_location self qid w
  = (Raise (RuntimeError "No active exception to reraise"),
     {| svc := s';
        trace := trace w ++ [EvCall (get_query_execution qid)] |}).
Proof.
  intros Hq E Hr. unfold get_output_location. rewrite Hq.
  unfold bind, call. rewrite E, Hr. reflexivity.
Qed.

(** X10.  Only a KeyError of the lookup is logged.  When the lookup in
    a record that is not empty fails otherwise (a value on the way is
    no dict: a TypeError), and when the fetch itself raises, the error
    goes to the caller with no log record written. *)
Theorem get_output_location_unlogged_errors self qid w r s' e :
  truthy qid = true ->
  serve (get_query_execution qid) (svc w) = (r, s') ->
  r = Raise e
  \/ (exists rec,
         r = Ok rec /\ truthy rec = true
         /\ subscripts rec
              ["QueryExecution"; "ResultConfiguration"; "OutputLocation"]
            = Raise e
         /\ forall k, e <> KeyError k) ->
  get_output_location self qid w
  = (Raise e,
     {| svc := s';
        trace := trace w ++ [EvCall (get_query_execution qid)] |}).
Proof.
  intros Hq E H. unfold get_output_location. rewrite Hq.
  unfold bind, call. rewrite E.
  destruct H as [->|(rec & -> & Hr & Hsub & Hk)]; [reflexivity|].
  rewrite Hr, Hsub.
  destruct e as [k| | | |]; try reflexivity.
  exfalso. exact (Hk k eq_refl).
Qed.

(** The parameters run_query sends. *)
Lemma run_query_params query query_context result_configuration
    (client_request_token : option string) workgroup :
  (if truthy (py_opt_str client_request_token)
   then dict_set
          [("QueryString", PStr query);
           ("QueryExecutionContext", PDict query_context);
           ("ResultConfiguration", PDict result_configuration);
           ("WorkGroup", PStr workgroup)]
          "ClientRequestToken" (py_opt_str client_request_token)
   else
     [("QueryString", PStr query);
      ("QueryExecutionContext", PDict query_context);
      ("ResultConfiguration", PDict result_configuration);
      ("WorkGroup", PStr workgroup)])
  = ([("QueryString", PStr query);
      ("QueryExecutionContext", PDict query_context);
      ("ResultConfiguration", PDict result_configuration);
      ("WorkGroup", PStr workgroup)]
     ++ match client_request_token with
        | Some token =>
            if token =? "" then [] else [("ClientRequestToken", PStr token)]
        | None => []
        end)%list.
Proof.
  destruct client_request_token as [token|]; [|reflexivity].
  cbn [py_opt_str truthy]. destruct (token =? ""); reflexivity.
Qed.

(** X11.  run_query has no recovery of its own: an error of the
    service, and the KeyError (or TypeError) of an answer without a
    QueryExecutionId, are raised to the caller.  In both cases the
    request has been sent by then, and no execution id is logged. *)
Theorem run_query_propagates self query query_context result_configuration
    client_request_token workgroup w r s' e :
  let params : list (string * pyval) :=
    ([("QueryString", PStr query);
      ("QueryExecutionContext", PDict query_context);
      ("ResultConfiguration", PDict result_configuration);
      ("WorkGroup", PStr workgroup)]
     ++ match client_request_token with
        | Some token =>
            if token =? "" then [] else [("ClientRequestToken", PStr token)]
        | None => []
        end)%list in
  serve {| op := StartQueryExecution; kwargs := params |} (svc w) = (r, s') ->
  r = Raise e
  \/ (exists response,
         r = Ok response
         /\ subscript response "QueryExecutionId" = Raise e) ->
  run_query self query query_context result_configuration
    client_request_token workgroup w
  = (Raise e,
     {| svc := s';
        trace :=
          trace w
          ++ (if log_query self
              then [EvLog INFO "Running Query with params: %s" [PDict params]]
              else [])
          ++ [EvCall {| op := StartQueryExecution; kwargs := params |}] |}).
Proof.
  intros params E H. unfold run_query.
  rewrite run_query_params. fold params. unfold bind, call.
  destruct (log_query self); unfold log, emit, ret, raise; cbn [svc trace];
    rewrite E;
    destruct H as [->|(response & -> & ->)];
    cbn [svc trace]; rewrite <- ?app_assoc; reflexivity.
Qed.

(** ** The state groups *)

(** X12.  The class constants split the states: the terminal states
    are the success states together with the failure states, no state
    is both a success and a failure state, and no state is both
    intermediate and terminal. *)
Theorem state_groups v :
  terminal v = py_in v SUCCESS_STATES || py_in v FAILURE_STATES
  /\ py_in v SUCCESS_STATES && py_in v FAILURE_STATES = false
  /\ py_in v INTERMEDIATE_STATES && terminal v = false.
Proof.
  destruct v as [| | |s| |]; try (repeat split; reflexivity).
  unfold terminal, py_in, TERMINAL_STATES, SUCCESS_STATES, FAILURE_STATES,
    INTERMEDIATE_STATES.
  cbn [existsb]. repeat split.
  - destruct (s =? "SUCCEEDED"), (s =? "FAILED"), (s =? "CANCELLED");
      reflexivity.
  - destruct (String.eqb_spec s "SUCCEEDED") as [->|_]; reflexivity.
  - destruct (String.eqb_spec s "QUEUED") as [->|_]; [reflexivity|].
    destruct (String.eqb_spec s "RUNNING") as [->|_]; reflexivity.
Qed.

End Hook.

(** ** The claims on scripted services *)

(** C1 refuted as stated: a fetch that fails makes check_query_status
    raise, and a state outside the five named ones is returned as it
    is. *)
Lemma check_query_status_propagates_fetch_error :
  check_query_status scripted default_hook (PStr "q-1")
    {| svc := [Raise (ClientError "ThrottlingException")]; trace := [] |}
  = (Raise (ClientError "ThrottlingException"),
     {| svc := []; trace := [EvCall (get_query_execution (PStr "q-1"))] |})
  /\ check_query_status scripted default_hook (PStr "q-1")
       {| svc := [Ok (record_in_state (PStr "UNKNOWN"))]; trace := [] |}
     = (Ok (PStr "UNKNOWN"),
        {| svc := []; trace := [EvCall (get_query_execution (PStr "q-1"))] |}).
Proof. split; reflexivity. Qed.

Lemma check_query_status_absorbs_missing_state_witness :
  check_query_status scripted default_hook (PStr "q-1")
    {| svc := [Ok (PDict [("QueryExecution", PDict [])])]; trace := [] |}
  = (Ok PNone,
     {| svc := [];
        trace :=
          [EvCall (get_query_execution (PStr "q-1"));
           EvLog EXCEPTION
             "Exception while getting query state. Query execution id: %s"
             [PStr "q-1"]] |}).
Proof.
  exact (proj1 (proj2
           (check_query_status_absorbs_missing_state scripted default_hook
              (PStr "q-1")
              {| svc := [Ok (PDict [("QueryExecution", PDict [])])];
                 trace := [] |}
              _ _ eq_refl))
           _ _ eq_refl eq_refl).
Defined.

(** The status is RUNNING at every check and the budget is 2: two
    checks, one sleep, and RUNNING returned. *)
Lemma poll_query_status_budget_expires_witness :
  exists tr,
    poll_query_status (constant (Ok (record_in_state (PStr "RUNNING"))))
      default_hook (PStr "q-1") (Some 2%Z) 2 {| svc := tt; trace := [] |}
    = (Some (Ok (PStr "RUNNING")), {| svc := tt; trace := tr |})
    /\ n_calls GetQueryExecution tr = 2%nat
    /\ n_any_calls tr = 2%nat
    /\ n_sleeps tr = 1%nat.
Proof.
  apply (poll_query_status_budget_expires
           (constant (Ok (record_in_state (PStr "RUNNING"))))
           default_hook (PStr "q-1") 2%Z [PStr "RUNNING"; PStr "RUNNING"] 2
           {| svc := tt; trace := [] |}).
  - reflexivity.
  - reflexivity.
  - exists [record_in_state (PStr "RUNNING"); record_in_state (PStr "RUNNING")].
    split; reflexivity.
  - repeat constructor.
  - apply le_n.
Defined.

(** The statuses are QUEUED, RUNNING, SUCCEEDED: SUCCEEDED is returned
    after exactly three checks and two sleeps. *)
Lemma poll_query_status_exits_on_terminal_witness :
  In (PStr "SUCCEEDED") [PStr "SUCCEEDED"; PStr "FAILED"; PStr "CANCELLED"]
  /\ exists tr,
      poll_query_status scripted default_hook (PStr "q-1") None 5
        {| svc := [Ok (record_in_state (PStr "QUEUED"));
                   Ok (record_in_state (PStr "RUNNING"));
                   Ok (record_in_state (PStr "SUCCEEDED"))];
           trace := [] |}
      = (Some (Ok (PStr "SUCCEEDED")),
         {| svc := [];
            trace :=
              tr
              ++ [EvLog INFO
                    "Query execution id: %s, trial %s: Query execution completed. Final state is %s"
                    [PStr "q-1"; PInt 3; PStr "SUCCEEDED"]] |})
      /\ n_calls GetQueryExecution tr = 3%nat
      /\ n_any_calls tr = 3%nat
      /\ n_sleeps tr = 2%nat.
Proof.
  apply (poll_query_status_exits_on_terminal scripted default_hook (PStr "q-1")
           None [PStr "QUEUED"; PStr "RUNNING"] (PStr "SUCCEEDED") 5
           {| svc := [Ok (record_in_state (PStr "QUEUED"));
                      Ok (record_in_state (PStr "RUNNING"));
                      Ok (record_in_state (PStr "SUCCEEDED"))];
              trace := [] |}).
  - exists [record_in_state (PStr "QUEUED"); record_in_state (PStr "RUNNING");
            record_in_state (PStr "SUCCEEDED")].
    split; reflexivity.
  - repeat constructor.
  - reflexivity.
  - intros i _. reflexivity.
  - simpl. lia.
Defined.

(** C4 refuted as stated: the status read is UNKNOWN, not SUCCEEDED,
    and get_query_results asks the service for the results all the
    same and returns them. *)
Lemma get_query_results_fetches_when_not_succeeded :
  check_query_status scripted default_hook (PStr "q-1")
    {| svc := [Ok (record_in_state (PStr "UNKNOWN"));
               Ok (PDict [("ResultSet", PDict [("Rows", PList [])])])];
       trace := [] |}
  = (Ok (PStr "UNKNOWN"),
     {| svc := [Ok (PDict [("ResultSet", PDict [("Rows", PList [])])])];
        trace := [EvCall (get_query_execution (PStr "q-1"))] |})
  /\ PStr "UNKNOWN" <> PStr "SUCCEEDED"
  /\ get_query_results scripted default_hook (PStr "q-1") None 1000
       {| svc := [Ok (record_in_state (PStr "UNKNOWN"));
                  Ok (PDict [("ResultSet", PDict [("Rows", PList [])])])];
          trace := [] |}
     = (Ok (PDict [("ResultSet", PDict [("Rows", PList [])])]),
        {| svc := [];
           trace :=
             [EvCall (get_query_execution (PStr "q-1"));
              EvCall {| op := GetQueryResults;
                        kwargs := [("QueryExecutionId", PStr "q-1");
                                   ("MaxResults", PInt 1000)] |}] |}).
Proof. repeat split; try reflexivity. discriminate. Qed.

(** The status is FAILED: None is returned and no results are asked
    for. *)
Lemma get_query_results_gate_witness :
  exists r w' tr,
    get_query_results scripted default_hook (PStr "q-1") None 1000
      {| svc := [Ok (record_in_state (PStr "FAILED"))]; trace := [] |}
    = (r, w')
    /\ trace w' = tr
    /\ r = Ok PNone
    /\ n_calls GetQueryResults tr = 0%nat
    /\ n_any_calls tr = 1%nat.
Proof.
  destruct (get_query_results_gate scripted default_hook (PStr "q-1") None 1000
              {| svc := [Ok (record_in_state (PStr "FAILED"))]; trace := [] |}
              (record_in_state (PStr "FAILED")) [] eq_refl)
    as (r & w' & tr & Hrun & Htr & Hclosed & _).
  exists r, w', tr.
  destruct Hclosed as (Hr & _ & Hn & Ha); [simpl; auto|].
  repeat split; assumption.
Defined.

(** The status is RUNNING at every check and there is no budget: after
    three passes the loop is still running, three fetches made. *)
Lemma poll_query_status_unbounded_witness :
  exists tr,
    poll_query_status (constant (Ok (record_in_state (PStr "RUNNING"))))
      default_hook (PStr "q-1") None 3 {| svc := tt; trace := [] |}
    = (None, {| svc := tt; trace := tr |})
    /\ n_calls GetQueryExecution tr = 3%nat.
Proof.
  apply (proj1 (proj2 (poll_query_status_unbounded
                         (constant (Ok (record_in_state (PStr "RUNNING"))))
                         default_hook (PStr "q-1")))
           [PStr "RUNNING"; PStr "RUNNING"; PStr "RUNNING"]
           {| svc := tt; trace := [] |}).
  - exists [record_in_state (PStr "RUNNING"); record_in_state (PStr "RUNNING");
            record_in_state (PStr "RUNNING")].
    split; reflexivity.
  - repeat constructor.
Defined.

(** C5 refuted as stated: QUEUED is read, then the fetch is throttled.
    Without a budget the loop is left all the same, by the exception,
    with no terminal state read: the SUCCEEDED the service would answer
    next is never fetched. *)
Lemma poll_query_status_unbounded_left_by_fetch_error :
  fst (poll_query_status scripted default_hook (PStr "q-1") None 100
         {| svc := [Ok (record_in_state (PStr "QUEUED"));
                    Raise (ClientError "ThrottlingException");
                    Ok (record_in_state (PStr "SUCCEEDED"))];
            trace := [] |})
  = Some (Raise (ClientError "ThrottlingException"))
  /\ svc (snd (poll_query_status scripted default_hook (PStr "q-1") None 100
                 {| svc := [Ok (record_in_state (PStr "QUEUED"));
                            Raise (ClientError "ThrottlingException");
                            Ok (record_in_state (PStr "SUCCEEDED"))];
                    trace := [] |}))
     = [Ok (record_in_state (PStr "SUCCEEDED"))]
  /\ n_calls GetQueryExecution
       (trace (snd (poll_query_status scripted default_hook (PStr "q-1")
                      None 100
                      {| svc := [Ok (record_in_state (PStr "QUEUED"));
                                 Raise (ClientError "ThrottlingException");
                                 Ok (record_in_state (PStr "SUCCEEDED"))];
                         trace := [] |})))
     = 2%nat.
Proof. repeat split; reflexivity. Qed.

(** C9 refuted as stated: with a budget of 0, RUNNING is read and then
    the fetch fails.  The loop is left by the exception with no
    terminal state read. *)
Lemma poll_query_status_zero_budget_left_by_fetch_error :
  fst (poll_query_status scripted default_hook (PStr "q-1") (Some 0%Z) 100
         {| svc := [Ok (record_in_state (PStr "RUNNING"));
                    Raise (ClientError "InternalServerException");
                    Ok (record_in_state (PStr "FAILED"))];
            trace := [] |})
  = Some (Raise (ClientError "InternalServerException"))
  /\ svc (snd (poll_query_status scripted default_hook (PStr "q-1")
                 (Some 0%Z) 100
                 {| svc := [Ok (record_in_state (PStr "RUNNING"));
                            Raise (ClientError "InternalServerException");
                            Ok (record_in_state (PStr "FAILED"))];
                    trace := [] |}))
     = [Ok (record_in_state (PStr "FAILED"))]
  /\ n_calls GetQueryExecution
       (trace (snd (poll_query_status scripted default_hook (PStr "q-1")
                      (Some 0%Z) 100
                      {| svc := [Ok (record_in_state (PStr "RUNNING"));
                                 Raise (ClientError "InternalServerException");
                                 Ok (record_in_state (PStr "FAILED"))];
                         trace := [] |})))
     = 2%nat.
Proof. repeat split; reflexivity. Qed.

(** The status is QUEUED, then RUNNING twice, and the budget is 0:
    after three passes the loop is still running, three fetches
    made. *)
Lemma poll_query_status_zero_budget_witness :
  exists tr,
    poll_query_status scripted default_hook (PStr "q-1") (Some 0%Z) 3
      {| svc := [Ok (record_in_state (PStr "QUEUED"));
                 Ok (record_in_state (PStr "RUNNING"));
                 Ok (record_in_state (PStr "RUNNING"));
                 Ok (record_in_state (PStr "SUCCEEDED"))];
         trace := [] |}
    = (None,
       {| svc := [Ok (record_in_state (PStr "SUCCEEDED"))]; trace := tr |})
    /\ n_calls GetQueryExecution tr = 3%nat.
Proof.
  apply (proj1 (proj2 (poll_query_status_zero_budget scripted default_hook
                         (PStr "q-1")))
           [PStr "QUEUED"; PStr "RUNNING"; PStr "RUNNING"]
           {| svc := [Ok (record_in_state (PStr "QUEUED"));
                      Ok (record_in_state (PStr "RUNNING"));
                      Ok (record_in_state (PStr "RUNNING"));
                      Ok (record_in_state (PStr "SUCCEEDED"))];
              trace := [] |}).
  - exists [record_in_state (PStr "QUEUED"); record_in_state (PStr "RUNNING");
            record_in_state (PStr "RUNNING")].
    split; reflexivity.
  - repeat constructor.
Defined.

Lemma get_output_location_rejects_empty_id_witness :
  get_output_location scripted default_hook (PStr "")
    {| svc := [Ok (record_in_state (PStr "SUCCEEDED"))]; trace := [] |}
  = (Raise (ValueError
              [PStr "Invalid Query execution id. Query execution id: %s";
               PStr ""]),
     {| svc := [Ok (record_in_state (PStr "SUCCEEDED"))]; trace := [] |}).
Proof.
  apply (get_output_location_rejects_empty_id scripted default_hook (PStr "")).
  left. reflexivity.
Defined.

Lemma get_output_location_reraises_missing_field_witness :
  get_output_location scripted default_hook (PStr "q-1")
    {| svc := [Ok (PDict [("QueryExecution",
                           PDict [("ResultConfiguration", PDict [])])])];
       trace := [] |}
  = (Raise (KeyError "OutputLocation"),
     {| svc := [];
        trace :=
          [EvCall (get_query_execution (PStr "q-1"));
           EvLog ERROR
             "Error retrieving OutputLocation. Query execution id: %s"
             [PStr "q-1"]] |}).
Proof.
  exact (get_output_location_reraises_missing_field scripted default_hook
           (PStr "q-1")
           {| svc := [Ok (PDict [("QueryExecution",
                                  PDict [("ResultConfiguration", PDict [])])])];
              trace := [] |}
           _ _ _ eq_refl eq_refl eq_refl eq_refl).
Defined.

Lemma run_query_submits_witness :
  run_query scripted default_hook "SELECT 1" [("Database", PStr "default")]
    [("OutputLocation", PStr "s3://bucket/out")] (Some "token-1") "primary"
    {| svc := [Ok (PDict [("QueryExecutionId", PStr "q-1")])]; trace := [] |}
  = (Ok (PStr "q-1"),
     {| svc := [];
        trace :=
          [EvLog INFO "Running Query with params: %s"
             [PDict [("QueryString", PStr "SELECT 1");
                     ("QueryExecutionContext",
                      PDict [("Database", PStr "default")]);
                     ("ResultConfiguration",
                      PDict [("OutputLocation", PStr "s3://bucket/out")]);
                     ("WorkGroup", PStr "primary");
                     ("ClientRequestToken", PStr "token-1")]];
           EvCall
             {| op := StartQueryExecution;
                kwargs :=
                  [("QueryString", PStr "SELECT 1");
                   ("QueryExecutionContext",
                    PDict [("Database", PStr "default")]);
                   ("ResultConfiguration",
                    PDict [("OutputLocation", PStr "s3://bucket/out")]);
                   ("WorkGroup", PStr "primary");
                   ("ClientRequestToken", PStr "token-1")] |};
           EvLog INFO "Query execution id: %s" [PStr "q-1"]] |}).
Proof.
  exact (run_query_submits scripted default_hook "SELECT 1"
           [("Database", PStr "default")]
           [("OutputLocation", PStr "s3://bucket/out")] (Some "token-1")
           "primary"
           {| svc := [Ok (PDict [("QueryExecutionId", PStr "q-1")])];
              trace := [] |}
           _ _ _ eq_refl eq_refl).
Defined.

(** The status read is UNKNOWN: the results are asked for. *)
Lemma result_fetch_gated_by_exclusion_witness :
  exists tr,
    get_query_results scripted default_hook (PStr "q-1") (Some "page-2") 50
      {| svc := [Ok (record_in_state (PStr "UNKNOWN"));
                 Ok (PDict [("ResultSet", PDict [("Rows", PList [])])])];
         trace := [] |}
    = (Ok (PDict [("ResultSet", PDict [("Rows", PList [])])]),
       {| svc := [];
          trace :=
            tr
            ++ [EvCall {| op := GetQueryResults;
                          kwargs := [("QueryExecutionId", PStr "q-1");
                                     ("MaxResults", PInt 50);
                                     ("NextToken", PStr "page-2")] |}] |})
    /\ n_any_calls tr = 1%nat.
Proof.
  apply (proj1 (result_fetch_gated_by_exclusion scripted default_hook
                  (PStr "q-1")
                  {| svc := [Ok (record_in_state (PStr "UNKNOWN"));
                             Ok (PDict [("ResultSet",
                                         PDict [("Rows", PList [])])])];
                     trace := [] |}
                  (record_in_state (PStr "UNKNOWN")) _ eq_refl
                  ltac:(discriminate)
                  ltac:(simpl; intros [H|[H|[H|[H|[]]]]]; discriminate))
           (Some "page-2") 50%Z).
Defined.

(** ** The further properties on scripted services *)

(** The status is RUNNING at every check and the budget is 2: the
    state returned is not terminal, and two checks were made. *)
Lemma poll_query_status_returns_nonterminal_witness :
  exists n tr,
    Some 2%Z = Some n
    /\ n <> 0%Z
    /\ trace (snd (poll_query_status
                     (constant (Ok (record_in_state (PStr "RUNNING"))))
                     default_hook (PStr "q-1") (Some 2%Z) 5
                     {| svc := tt; trace := [] |}))
       = tr
    /\ Z.of_nat (n_calls GetQueryExecution tr) = Z.max 1 n.
Proof.
  exact (poll_query_status_returns_nonterminal
           (constant (Ok (record_in_state (PStr "RUNNING"))))
           default_hook (PStr "q-1") (Some 2%Z) 5
           {| svc := tt; trace := [] |} (PStr "RUNNING")
           (snd (poll_query_status
                   (constant (Ok (record_in_state (PStr "RUNNING"))))
                   default_hook (PStr "q-1") (Some 2%Z) 5
                   {| svc := tt; trace := [] |}))
           eq_refl eq_refl).
Defined.

(** A budget of -1: one check, and RUNNING returned. *)
Lemma poll_query_status_single_check_witness :
  exists tr,
    poll_query_status scripted default_hook (PStr "q-1") (Some (-1)%Z) 3
      {| svc := [Ok (record_in_state (PStr "RUNNING"));
                 Ok (record_in_state (PStr "SUCCEEDED"))];
         trace := [] |}
    = (Some (Ok (PStr "RUNNING")),
       {| svc := [Ok (record_in_state (PStr "SUCCEEDED"))]; trace := tr |})
    /\ n_calls GetQueryExecution tr = 1%nat
    /\ n_any_calls tr = 1%nat
    /\ n_sleeps tr = 0%nat.
Proof.
  apply (poll_query_status_single_check scripted default_hook (PStr "q-1")
           (-1)%Z 2
           {| svc := [Ok (record_in_state (PStr "RUNNING"));
                      Ok (record_in_state (PStr "SUCCEEDED"))];
              trace := [] |}
           (record_in_state (PStr "RUNNING"))
           [Ok (record_in_state (PStr "SUCCEEDED"))]).
  - discriminate.
  - discriminate.
  - reflexivity.
Defined.

(** QUEUED is read, then the fetch is throttled: the loop raises. *)
Lemma poll_query_status_propagates_fetch_error_witness :
  exists tr,
    poll_query_status scripted default_hook (PStr "q-1") None 4
      {| svc := [Ok (record_in_state (PStr "QUEUED"));
                 Raise (ClientError "ThrottlingException");
                 Ok (record_in_state (PStr "SUCCEEDED"))];
         trace := [] |}
    = (Some (Raise (ClientError "ThrottlingException")),
       {| svc := [Ok (record_in_state (PStr "SUCCEEDED"))]; trace := tr |})
    /\ n_calls GetQueryExecution tr = 2%nat
    /\ n_any_calls tr = 2%nat
    /\ n_sleeps tr = 1%nat.
Proof.
  apply (poll_query_status_propagates_fetch_error scripted default_hook
           (PStr "q-1") None [PStr "QUEUED"] 4
           {| svc := [Ok (record_in_state (PStr "QUEUED"));
                      Raise (ClientError "ThrottlingException");
                      Ok (record_in_state (PStr "SUCCEEDED"))];
              trace := [] |}
           (ClientError "ThrottlingException")
           [Ok (record_in_state (PStr "SUCCEEDED"))]).
  - exists [record_in_state (PStr "QUEUED")]. split; reflexivity.
  - repeat constructor.
  - intros i _. reflexivity.
  - reflexivity.
  - simpl. lia.
Defined.

(** A record with a state and no reason of a state change. *)
Lemma get_state_change_reason_absorbs_missing_reason_witness :
  get_state_change_reason scripted default_hook (PStr "q-1")
    {| svc := [Ok (record_in_state (PStr "RUNNING"))]; trace := [] |}
  = (Ok PNone,
     {| svc := [];
        trace :=
          [EvCall (get_query_execution (PStr "q-1"));
           EvLog EXCEPTION
             "Exception while getting query state change reason. Query execution id: %s"
             [PStr "q-1"]] |}).
Proof.
  exact (proj1 (proj2
           (get_state_change_reason_absorbs_missing_reason scripted
              default_hook (PStr "q-1")
              {| svc := [Ok (record_in_state (PStr "RUNNING"))]; trace := [] |}
              _ _ eq_refl))
           _ _ eq_refl eq_refl).
Defined.

(** The status is CANCELLED: no paginator is asked for. *)
Lemma get_query_results_paginator_gate_witness :
  exists r w' tr,
    get_query_results_paginator scripted default_hook (PStr "q-1")
      (Some 100%Z) None None
      {| svc := [Ok (record_in_state (PStr "CANCELLED"))]; trace := [] |}
    = (r, w')
    /\ trace w' = tr
    /\ r = Ok PNone
    /\ n_calls (Paginate "get_query_results") tr = 0%nat
    /\ n_any_calls tr = 1%nat.
Proof.
  destruct (get_query_results_paginator_gate scripted default_hook (PStr "q-1")
              (Some 100%Z) None None
              {| svc := [Ok (record_in_state (PStr "CANCELLED"))]; trace := [] |}
              (record_in_state (PStr "CANCELLED")) [] eq_refl)
    as (r & w' & tr & Hrun & Htr & Hclosed & _).
  exists r, w', tr.
  destruct Hclosed as (Hr & _ & Hn & Ha); [simpl; auto 6|].
  repeat split; assumption.
Defined.

Lemma result_access_propagates_status_error_witness :
  get_query_results scripted default_hook (PStr "q-1") None 1000
    {| svc := [Raise (ClientError "ThrottlingException")]; trace := [] |}
  = (Raise (ClientError "ThrottlingException"),
     {| svc := []; trace := [EvCall (get_query_execution (PStr "q-1"))] |}).
Proof.
  exact (proj1
           (result_access_propagates_status_error scripted default_hook
              (PStr "q-1")
              {| svc := [Raise (ClientError "ThrottlingException")];
                 trace := [] |}
              _ _ eq_refl)
           None 1000%Z).
Defined.

Lemma get_output_location_returns_witness :
  get_output_location scripted default_hook (PStr "q-1")
    {| svc := [Ok (PDict [("QueryExecution",
                           PDict [("ResultConfiguration",
                                   PDict [("OutputLocation",
                                           PStr "s3://bucket/out/q-1.csv")])])])];
       trace := [] |}
  = (Ok (PStr "s3://bucket/out/q-1.csv"),
     {| svc := []; trace := [EvCall (get_query_execution (PStr "q-1"))] |}).
Proof.
  apply (proj2 (get_output_location_returns scripted default_hook (PStr "q-1")
                  _ _ _)).
  split; [reflexivity|].
  eexists. repeat split; reflexivity.
Defined.

Lemma get_output_location_empty_record_witness :
  get_output_location scripted default_hook (PStr "q-1")
    {| svc := [Ok (PDict [])]; trace := [] |}
  = (Raise (RuntimeError "No active exception to reraise"),
     {| svc := []; trace := [EvCall (get_query_execution (PStr "q-1"))] |}).
Proof.
  exact (get_output_location_empty_record scripted default_hook (PStr "q-1")
           {| svc := [Ok (PDict [])]; trace := [] |} _ _
           eq_refl eq_refl eq_refl).
Defined.

(** The QueryExecution of the record is None: a TypeError, not
    logged. *)
Lemma get_output_location_unlogged_errors_witness :
  get_output_location scripted default_hook (PStr "q-1")
    {| svc := [Ok (PDict [("QueryExecution", PNone)])]; trace := [] |}
  = (Raise (TypeError "'NoneType' object is not subscriptable"),
     {| svc := []; trace := [EvCall (get_query_execution (PStr "q-1"))] |}).
Proof.
  apply (get_output_location_unlogged_errors scripted default_hook (PStr "q-1")
           {| svc := [Ok (PDict [("QueryExecution", PNone)])]; trace := [] |}
           _ _ _ eq_refl eq_refl).
  right. exists (PDict [("QueryExecution", PNone)]).
  repeat split. intros k. discriminate.
Defined.

(** The service answers without a QueryExecutionId. *)
Lemma run_query_propagates_witness :
  run_query scripted {| sleep_time := 30; log_query := false |} "SELECT 1"
    [("Database", PStr "default")]
    [("OutputLocation", PStr "s3://bucket/out")] None "primary"
    {| svc := [Ok (PDict [])]; trace := [] |}
  = (Raise (KeyError "QueryExecutionId"),
     {| svc := [];
        trace :=
          [EvCall
             {| op := StartQueryExecution;
                kwargs :=
                  [("QueryString", PStr "SELECT 1");
                   ("QueryExecutionContext",
                    PDict [("Database", PStr "default")]);
                   ("ResultConfiguration",
                    PDict [("OutputLocation", PStr "s3://bucket/out")]);
                   ("WorkGroup", PStr "primary")] |}] |}).
Proof.
  apply (run_query_propagates scripted {| sleep_time := 30; log_query := false |}
           "SELECT 1" [("Database", PStr "default")]
           [("OutputLocation", PStr "s3://bucket/out")] None "primary"
           {| svc := [Ok (PDict [])]; trace := [] |}
           _ _ _ eq_refl).
  right. exists (PDict []). split; reflexivity.
Defined.
